(** * scripts/create_proposal_doc.py

    A shallow embedding of the markdown-to-document script: the markdown
    parser ([parse_markdown]), the batch builder ([create_document]), the
    credential manager ([get_credentials]) and the entry point ([main]).

    Python [str] values are sequences of Unicode code points, so a string is
    a list of code points ([N]); [len] is the length of that list.  Python
    integers are unbounded and are modelled by [Z]. *)

From Stdlib Require Import List ZArith NArith Bool Lia String Ascii.
Import ListNotations.

Local Open Scope Z_scope.

(** ** Python strings *)

Module Py.

Definition str := list N.

(** An ASCII literal of the source, as a Python string. *)
Definition lit (s : string) : str :=
  List.map N_of_ascii (list_ascii_of_string s).

Definition len (s : str) : Z := Z.of_nat (List.length s).

(** [str.isspace] on one character: the code points CPython's
    [_PyUnicode_IsWhitespace] accepts. *)
Definition isspace (c : N) : bool :=
  ((9 <=? c) && (c <=? 13) || (28 <=? c) && (c <=? 32)
   || (c =? 133) || (c =? 160) || (c =? 5760)
   || (8192 <=? c) && (c <=? 8202)
   || (c =? 8232) || (c =? 8233) || (c =? 8239) || (c =? 8287)
   || (c =? 12288))%N.

Fixpoint lstrip (s : str) : str :=
  match s with
  | [] => []
  | c :: s' => if isspace c then lstrip s' else s
  end.

Definition rstrip (s : str) : str := rev (lstrip (rev s)).

(** [s.strip()] with no argument. *)
Definition strip (s : str) : str := rstrip (lstrip s).

(** [s.startswith(p)] *)
Fixpoint startswith (p s : str) : bool :=
  match p, s with
  | [], _ => true
  | _ :: _, [] => false
  | x :: p', y :: s' => N.eqb x y && startswith p' s'
  end.

(** [s.endswith(p)] *)
Definition endswith (p s : str) : bool := startswith (rev p) (rev s).

(** Normalisation of one slice bound against a length, as Python does it:
    a negative bound counts from the end, and every bound is clamped. *)
Definition bound (n i : Z) : Z :=
  if i <? 0 then Z.max 0 (n + i) else Z.min n i.

(** [s[a:b]] *)
Definition slice (s : str) (a b : Z) : str :=
  let n := len s in
  let lo := bound n a in
  let hi := bound n b in
  firstn (Z.to_nat (hi - lo)) (skipn (Z.to_nat lo) s).

(** [s[a:]] *)
Definition slice_from (s : str) (a : Z) : str :=
  skipn (Z.to_nat (bound (len s) a)) s.

(** [s.replace(old, new)]: occurrences are found left to right and do not
    overlap.  [skip] counts the characters of a matched occurrence that are
    still to be consumed. *)
Fixpoint replace_go (old new : str) (skip : nat) (s : str) : str :=
  match s with
  | [] => match old with [] => new | _ :: _ => [] end
  | c :: s' =>
      match skip with
      | S k => replace_go old new k s'
      | O =>
          match old with
          | [] => new ++ c :: replace_go old new 0 s'
          | _ :: _ =>
              if startswith old s
              then new ++ replace_go old new (List.length old - 1) s'
              else c :: replace_go old new 0 s'
          end
      end
  end.

Definition replace (old new s : str) : str := replace_go old new 0 s.

(** Text-mode reading with universal newlines: CR LF and a lone CR are
    both read as LF. *)
Fixpoint universal_newlines (s : str) : str :=
  match s with
  | [] => []
  | c :: r =>
      if (c =? 13)%N
      then match r with
           | d :: r' => if (d =? 10)%N then 10%N :: universal_newlines r'
                        else 10%N :: universal_newlines r
           | [] => [10%N]
           end
      else c :: universal_newlines r
  end.

(** Splitting into lines, each line keeping its terminating LF.  [cur] is
    the current line, reversed. *)
Fixpoint split_lines (cur : str) (s : str) : list str :=
  match s with
  | [] => match cur with [] => [] | _ :: _ => [rev cur] end
  | c :: r =>
      if (c =? 10)%N then rev (c :: cur) :: split_lines [] r
      else split_lines (c :: cur) r
  end.

(** [f.readlines()] on a file whose decoded content is [content]. *)
Definition readlines (content : str) : list str :=
  split_lines [] (universal_newlines content).

(** Truth value of a string: the empty string is false. *)
Definition truthy (s : str) : bool :=
  match s with [] => false | _ :: _ => true end.

End Py.

(** ** Segments *)

Inductive style : Type :=
  | TITLE | HEADING_1 | HEADING_2 | NORMAL | LIST_ITEM.

Definition style_eqb (a b : style) : bool :=
  match a, b with
  | TITLE, TITLE | HEADING_1, HEADING_1 | HEADING_2, HEADING_2
  | NORMAL, NORMAL | LIST_ITEM, LIST_ITEM => true
  | _, _ => false
  end.

(** The dict [{'text': ..., 'style': ..., 'bold': ...}]. *)
Record segment : Type := Segment {
  text : Py.str;
  seg_style : style;
  bold : bool
}.

(** ** parse_markdown *)

Definition TAB : N := 9.
Definition NL : N := 10.
Definition STAR : N := 42.

(** "Determine Style": the if/elif chain on the stripped line, in the
    order of the source.  Returns [(style, content)]. *)
Definition determine_style (line : Py.str) : style * Py.str :=
  if Py.startswith (Py.lit "# ") line then (TITLE, Py.slice_from line 2)
  else if Py.startswith (Py.lit "## ") line then (HEADING_1, Py.slice_from line 3)
  else if Py.startswith (Py.lit "### ") line then (HEADING_2, Py.slice_from line 4)
  else if Py.startswith (Py.lit "- ") line || Py.startswith (Py.lit "* ") line
       then (LIST_ITEM, TAB :: Py.slice_from line 2)
  else (NORMAL, line).

(** Whole-line bold detection; returns [(is_bold, content)]. *)
Definition detect_bold (content : Py.str) : bool * Py.str :=
  if Py.startswith (Py.lit "**") content && Py.endswith (Py.lit "**") content
  then (true, Py.slice content 2 (-2))
  else (false, content).

(** [content.replace('**', '').replace('*', '')] *)
Definition clean_markers (content : Py.str) : Py.str :=
  Py.replace (Py.lit "*") [] (Py.replace (Py.lit "**") [] content).

(** The loop state: the list [segments] and the variable
    [current_segment]. *)
Record parse_state : Type := ParseState {
  segments : list segment;
  current_segment : option segment
}.

Definition blank_segment : segment := Segment [NL] NORMAL false.

(** One iteration of [for line in lines]. *)
Definition parse_step (st : parse_state) (raw : Py.str) : parse_state :=
  let line := Py.strip raw in
  if negb (Py.truthy line) then
    (* a segment dict has three keys, so it is true whenever it is not None *)
    let segs := match current_segment st with
                | Some cs => segments st ++ [cs]
                | None => segments st
                end in
    ParseState (segs ++ [blank_segment]) None
  else
    let '(sty, content) := determine_style line in
    let '(is_bold, content) := detect_bold content in
    let content := clean_markers content in
    ParseState (segments st ++ [Segment (content ++ [NL]) sty is_bold])
               (current_segment st).

Definition parse_lines (lines : list Py.str) : list segment :=
  segments (fold_left parse_step lines (ParseState [] None)).

(** [parse_markdown] on a file whose decoded content is [content]. *)
Definition parse_markdown (content : Py.str) : list segment :=
  parse_lines (Py.readlines content).

(** ** Edit operations *)

Inductive named_style : Type :=
  | NS_NORMAL_TEXT | NS_TITLE | NS_HEADING_1 | NS_HEADING_2.

Inductive request : Type :=
  | InsertText (txt : Py.str)
      (* at endOfSegmentLocation *)
  | UpdateParagraphStyle (startIndex endIndex : Z) (namedStyleType : named_style)
  | UpdateTextStyle (startIndex endIndex : Z) (is_bold : bool).

Definition p_style (s : style) : named_style :=
  match s with
  | TITLE => NS_TITLE
  | HEADING_1 => NS_HEADING_1
  | HEADING_2 => NS_HEADING_2
  | _ => NS_NORMAL_TEXT
  end.

(** The loop state of the batch builder: [requests] and [current_index]. *)
Record build_state : Type := BuildState {
  requests : list request;
  current_index : Z
}.

(** One iteration of [for segment in content_segments]. *)
Definition build_step (st : build_state) (seg : segment) : build_state :=
  let txt := text seg in
  let sty := seg_style seg in
  let reqs := requests st ++ [InsertText txt] in
  let start_idx := current_index st in
  let end_idx := current_index st + Py.len txt - 1 in
  let reqs :=
    if negb (style_eqb sty NORMAL) && negb (style_eqb sty LIST_ITEM)
    then reqs ++ [UpdateParagraphStyle start_idx end_idx (p_style sty)]
    else reqs in
  let reqs :=
    if bold seg then reqs ++ [UpdateTextStyle start_idx end_idx true]
    else reqs in
  BuildState reqs (current_index st + Py.len txt).

Definition build_init : build_state := BuildState [] 1.

Definition build_requests (content_segments : list segment) : build_state :=
  fold_left build_step content_segments build_init.


(** ** Effects

    The script prints to standard output, reads and writes [token.json],
    and calls the identity provider and the document service.  A raised
    exception ends the computation; nothing in the script catches one. *)

Definition exn := string.

Inductive result (A : Type) : Type :=
  | Ok (a : A)
  | Raise (e : exn).
Arguments Ok {A} a.
Arguments Raise {A} e.

(** The OAuth credentials object, reduced to what the script reads:
    [creds.token], [creds.expired] and [creds.refresh_token]. *)
Record credentials : Type := Credentials {
  token : option Py.str;
  expired : bool;
  refresh_token : option Py.str
}.

(** The library's [valid] property: a token is present and not expired. *)
Definition valid (c : credentials) : bool :=
  match token c with Some _ => negb (expired c) | None => false end.

(** Truth value of [creds.refresh_token]: [None] and [''] are false. *)
Definition has_refresh (c : credentials) : bool :=
  match refresh_token c with Some s => Py.truthy s | None => false end.

(** A Python value that is either [None] or a string. *)
Inductive pyval : Type :=
  | VNone
  | VStr (s : Py.str).

(** [f'{v}'] *)
Definition format (v : pyval) : Py.str :=
  match v with VNone => Py.lit "None" | VStr s => s end.

(** The response of [documents().create]: [doc.get('documentId')] is
    [None] when the key is missing. *)
Record document : Type := Document {
  documentId : option Py.str
}.

Definition doc_get_documentId (d : document) : pyval :=
  match documentId d with Some s => VStr s | None => VNone end.

(** The session handle returned by [build('docs', 'v1', ...)]: what its
    two remote calls answer. *)
Record service : Type := Service {
  documents_create : Py.str -> result document;
  documents_batchUpdate : pyval -> list request -> result unit
}.

(** The calls a run makes to the identity provider and to the document
    service, recorded when they are attempted. *)
Inductive remote_call : Type :=
  | CallRefresh (c : credentials)
  | CallInteractiveFlow
  | CallCreate (title : Py.str)
  | CallBatchUpdate (doc_id : pyval) (reqs : list request).

(** Everything outside the process that a run consults. *)
Record environment : Type := Environment {
  credentials_json_exists : bool;
  refresh : credentials -> result credentials;
      (* creds.refresh(Request()) *)
  run_flow : result credentials;
      (* InstalledAppFlow.from_client_secrets_file, then run_local_server *)
  flow_output : list Py.str;
      (* what run_local_server prints to standard output while it runs:
         by default its authorization prompt with the URL to visit *)
  open_token_for_writing : result unit;
      (* open('token.json', 'w') *)
  discovery_build : credentials -> result service;
  read_md : result Py.str
      (* open(MD_FILE_PATH, 'r', encoding='utf-8'), decoded *)
}.

(** What a run changes.  [token_json] is [None] when the file does not
    exist; otherwise it holds what [Credentials.from_authorized_user_file]
    makes of the file: the credentials, or the exception it raises. *)
Record world : Type := World {
  stdout : list Py.str;
  token_json : option (result credentials);
  remote_calls : list remote_call
}.

Definition M (A : Type) : Type := world -> result A * world.

Definition ret {A} (a : A) : M A := fun w => (Ok a, w).

Definition bind {A B} (m : M A) (k : A -> M B) : M B :=
  fun w => match m w with
           | (Ok a, w') => k a w'
           | (Raise e, w') => (Raise e, w')
           end.

Notation "x <- m ;; k" := (bind m (fun x => k))
  (at level 61, m at next level, right associativity).
Notation "m ;;; k" := (bind m (fun _ => k))
  (at level 61, right associativity).

Definition lift {A} (r : result A) : M A := fun w => (r, w).

Definition print (line : Py.str) : M unit :=
  fun w => (Ok tt, World (stdout w ++ [line]) (token_json w) (remote_calls w)).

(** Lines printed by a library call. *)
Fixpoint print_all (lines : list Py.str) : M unit :=
  match lines with
  | [] => ret tt
  | l :: r => print l ;;; print_all r
  end.

Definition log_call (c : remote_call) : M unit :=
  fun w => (Ok tt, World (stdout w) (token_json w) (remote_calls w ++ [c])).

(** [os.path.exists('token.json')] and
    [Credentials.from_authorized_user_file('token.json', SCOPES)] *)
Definition load_token : M (option credentials) :=
  fun w => match token_json w with
           | None => (Ok None, w)
           | Some (Ok c) => (Ok (Some c), w)
           | Some (Raise e) => (Raise e, w)
           end.

(** [with open('token.json', 'w') as token: token.write(creds.to_json())] *)
Definition save_token (env : environment) (c : credentials) : M unit :=
  fun w => match open_token_for_writing env with
           | Ok _ => (Ok tt, World (stdout w) (Some (Ok c)) (remote_calls w))
           | Raise e => (Raise e, w)
           end.

(** ** get_credentials *)

Definition missing_config_message : list Py.str :=
  [ Py.lit "ERROR: credentials.json not found.";
    Py.lit "Please download your OAuth 2.0 Client credentials from the Google Cloud Console";
    Py.lit "and save them as 'credentials.json' in this directory." ].

(** The [else] branch: the guided message and [return None] when
    [credentials.json] is missing, the interactive flow otherwise. *)
Definition interactive_flow (env : environment) : M (option credentials) :=
  if negb (credentials_json_exists env) then
    print (Py.lit "ERROR: credentials.json not found.") ;;;
    print (Py.lit "Please download your OAuth 2.0 Client credentials from the Google Cloud Console") ;;;
    print (Py.lit "and save them as 'credentials.json' in this directory.") ;;;
    ret None
  else
    log_call CallInteractiveFlow ;;;
    print_all (flow_output env) ;;;
    c' <- lift (run_flow env) ;;
    save_token env c' ;;;
    ret (Some c').

(** The [if] branch: [creds.refresh(Request())], then the save. *)
Definition refresh_flow (env : environment) (c : credentials)
    : M (option credentials) :=
  log_call (CallRefresh c) ;;;
  c' <- lift (refresh env c) ;;
  save_token env c' ;;;
  ret (Some c').

(** Returns [None] or the credentials. *)
Definition get_credentials (env : environment) : M (option credentials) :=
  creds <- load_token ;;
  match creds with
  | None => interactive_flow env
  | Some c =>
      if negb (valid c) then
        if expired c && has_refresh c then refresh_flow env c
        else interactive_flow env
      else ret (Some c)
  end.

(** ** create_document *)

Definition DOCUMENT_TITLE : Py.str := Py.lit "GigYYC Strategic Business Plan".

Definition call_create (svc : service) (title : Py.str) : M document :=
  log_call (CallCreate title) ;;;
  lift (documents_create svc title).

Definition call_batchUpdate (svc : service) (doc_id : pyval)
    (reqs : list request) : M unit :=
  log_call (CallBatchUpdate doc_id reqs) ;;;
  lift (documents_batchUpdate svc doc_id reqs).

(** The function has no [return] statement: it returns [None]. *)
Definition create_document (svc : service) (title : Py.str)
    (content_segments : list segment) : M pyval :=
  doc <- call_create svc title ;;
  let doc_id := doc_get_documentId doc in
  print (Py.lit "Created document with title: " ++ title) ;;;
  print (Py.lit "Document ID: " ++ format doc_id) ;;;
  let reqs := requests (build_requests content_segments) in
  match reqs with
  | [] => ret VNone
  | _ :: _ =>
      call_batchUpdate svc doc_id reqs ;;;
      print (Py.lit "Content inserted and formatted.") ;;;
      print (Py.lit "View your document here: https://docs.google.com/document/d/"
             ++ format doc_id) ;;;
      ret VNone
  end.

(** ** main *)

Definition main (env : environment) : M pyval :=
  creds <- get_credentials env ;;
  match creds with
  | None => ret VNone
  | Some c =>
      svc <- lift (discovery_build env c) ;;
      content <- lift (read_md env) ;;
      let segs := parse_markdown content in
      create_document svc DOCUMENT_TITLE segs ;;;
      ret VNone
  end.

(** ** The specification's wording, for comparison with the code *)

(** The prefix precedence as the specification lists it: "### " first,
    then "## ", "# ", the two list markers, and NORMAL otherwise. *)
Definition spec_determine_style (line : Py.str) : style * Py.str :=
  if Py.startswith (Py.lit "### ") line then (HEADING_2, skipn 4 line)
  else if Py.startswith (Py.lit "## ") line then (HEADING_1, skipn 3 line)
  else if Py.startswith (Py.lit "# ") line then (TITLE, skipn 2 line)
  else if Py.startswith (Py.lit "- ") line then (LIST_ITEM, TAB :: skipn 2 line)
  else if Py.startswith (Py.lit "* ") line then (LIST_ITEM, TAB :: skipn 2 line)
  else (NORMAL, line).

Definition not_star (c : N) : bool := negb (c =? STAR)%N.

(** Emphasis-marker stripping: every asterisk goes. *)
Definition strip_markers (s : Py.str) : Py.str := filter not_star s.

(** The file content "modulo trailing-whitespace trimming per line and
    emphasis-marker stripping": each line loses its trailing whitespace
    and its asterisks, and is newline-terminated again. *)
Definition spec_normalise_line (raw : Py.str) : Py.str :=
  strip_markers (Py.rstrip raw) ++ [NL].

Definition spec_normalise (content : Py.str) : Py.str :=
  List.concat (map spec_normalise_line (Py.readlines content)).

(** ** Notions used in the statements *)

(** What a line contributes to the document text: trimmed on both sides,
    its heading marker removed or its list marker replaced by a tab, its
    asterisks removed, newline-terminated. *)
Definition line_text (raw : Py.str) : Py.str :=
  strip_markers (snd (spec_determine_style (Py.strip raw))) ++ [NL].

(** The text of the segment that the loop body makes from [content]. *)
Definition segment_text (content : Py.str) : Py.str :=
  clean_markers (snd (detect_bold content)) ++ [NL].

(** The segment that one raw line yields. *)
Definition line_segment (raw : Py.str) : segment :=
  let line := Py.strip raw in
  match line with
  | [] => blank_segment
  | _ :: _ =>
      Segment (segment_text (snd (determine_style line)))
              (fst (determine_style line))
              (fst (detect_bold (snd (determine_style line))))
  end.

(** All segment texts, concatenated in order. *)
Definition body_text (segs : list segment) : Py.str :=
  List.concat (map text segs).

(** The range-based operations of a batch, as [(start, end)] pairs. *)
Fixpoint ranges (reqs : list request) : list (Z * Z) :=
  match reqs with
  | [] => []
  | InsertText _ :: r => ranges r
  | UpdateParagraphStyle a b _ :: r => (a, b) :: ranges r
  | UpdateTextStyle a b _ :: r => (a, b) :: ranges r
  end.

(** The cursor when the segment at position [k] is reached. *)
Definition cursor_at (content_segments : list segment) (k : nat) : Z :=
  current_index (build_requests (firstn k content_segments)).

(** ** Sample inputs and conditions used in the statements *)

Definition title_and_body : list segment :=
  [ Segment (Py.lit "Title" ++ [NL]) TITLE false;
    Segment (Py.lit "Body" ++ [NL]) NORMAL false ].

Definition service_ok : service :=
  Service (fun _ => Ok (Document (Some (Py.lit "doc-1"))))
          (fun _ _ => Ok tt).

Definition world0 : world := World [] None [].

Definition service_rejecting_batch : service :=
  Service (fun _ => Ok (Document (Some (Py.lit "doc-1"))))
          (fun _ _ => Raise "HttpError 400"%string).

(** The line that the interactive flow prints. *)
Definition authorization_prompt : list Py.str :=
  [Py.lit "Please visit this URL to authorize this application: https://accounts.google.com/o/oauth2/auth"].

Definition expired_token : credentials :=
  Credentials (Some (Py.lit "old-access")) true (Some (Py.lit "refresh-1")).

Definition fresh_token : credentials :=
  Credentials (Some (Py.lit "new-access")) false (Some (Py.lit "refresh-1")).

(** The identity provider rejects the refresh; the interactive flow would
    succeed. *)
Definition env_refresh_rejected : environment :=
  Environment true
    (fun _ => Raise "RefreshError"%string)
    (Ok fresh_token)
    authorization_prompt
    (Ok tt)
    (fun _ => Ok service_ok)
    (Ok (Py.lit "# Title")).

Definition world_expired : world := World [] (Some (Ok expired_token)) [].

Definition env_refresh_accepted : environment :=
  Environment true
    (fun _ => Ok fresh_token)
    (Raise "unused"%string)
    []
    (Ok tt)
    (fun _ => Ok service_ok)
    (Ok (Py.lit "# Title")).

(** No token is persisted, or the persisted one is neither valid nor
    refreshable. *)
Definition no_usable_token (w : world) : Prop :=
  token_json w = None
  \/ exists c, token_json w = Some (Ok c)
               /\ valid c = false
               /\ expired c && has_refresh c = false.

(** The credentials [c] come from the calls on the path that the state of
    [token.json] selects, all of which succeeded: a valid persisted token;
    or, for an invalid token that is expired with a refresh value, the
    refresh and the write; or, with no usable token, the interactive flow
    and the write. *)
Definition credentials_obtained (env : environment) (w : world)
    (c : credentials) : Prop :=
  (token_json w = Some (Ok c) /\ valid c = true)
  \/ (exists c0, token_json w = Some (Ok c0)
                 /\ valid c0 = false
                 /\ expired c0 && has_refresh c0 = true
                 /\ refresh env c0 = Ok c
                 /\ open_token_for_writing env = Ok tt)
  \/ (no_usable_token w
      /\ credentials_json_exists env = true
      /\ run_flow env = Ok c
      /\ open_token_for_writing env = Ok tt).

(** A call of the credential step, on the path that the state of
    [token.json] selects, fails with [e]: loading [token.json], the
    refresh, the interactive flow, or opening [token.json] for writing. *)
Definition credential_failure (env : environment) (w : world) (e : exn) : Prop :=
  token_json w = Some (Raise e)
  \/ (exists c0, token_json w = Some (Ok c0)
                 /\ valid c0 = false
                 /\ expired c0 && has_refresh c0 = true
                 /\ (refresh env c0 = Raise e
                     \/ exists c, refresh env c0 = Ok c
                                  /\ open_token_for_writing env = Raise e))
  \/ (no_usable_token w
      /\ credentials_json_exists env = true
      /\ (run_flow env = Raise e
          \/ exists c, run_flow env = Ok c
                       /\ open_token_for_writing env = Raise e)).

(** With the credentials [c], the first call that fails after the
    credential step fails with [e]: building the session, reading the
    markdown file, the create call, or the batch call. *)
Definition pipeline_failure (env : environment) (c : credentials) (e : exn)
    : Prop :=
  discovery_build env c = Raise e
  \/ exists svc,
       discovery_build env c = Ok svc
       /\ (read_md env = Raise e
           \/ exists content,
                read_md env = Ok content
                /\ (documents_create svc DOCUMENT_TITLE = Raise e
                    \/ exists d,
                         documents_create svc DOCUMENT_TITLE = Ok d
                         /\ requests (build_requests (parse_markdown content))
                            <> []
                         /\ documents_batchUpdate svc (doc_get_documentId d)
                              (requests (build_requests (parse_markdown content)))
                            = Raise e)).

(** The world after the interactive flow has been started. *)
Definition after_flow (env : environment) (w : world) : world :=
  World (stdout w ++ flow_output env) (token_json w)
        (remote_calls w ++ [CallInteractiveFlow]).

Definition after_missing_config (w : world) : world :=
  World (stdout w ++ missing_config_message) (token_json w) (remote_calls w).

Definition env_missing_config : environment :=
  Environment false
    (fun _ => Raise "unused"%string)
    (Raise "unused"%string)
    []
    (Ok tt)
    (fun _ => Ok service_ok)
    (Ok (Py.lit "# Title")).

(** The texts of the insert operations of a batch, in order. *)
Fixpoint inserted_texts (reqs : list request) : list Py.str :=
  match reqs with
  | [] => []
  | InsertText t :: r => t :: inserted_texts r
  | _ :: r => inserted_texts r
  end.

(** A request with its range moved [d] positions to the right. *)
Definition shift_request (d : Z) (r : request) : request :=
  match r with
  | InsertText t => InsertText t
  | UpdateParagraphStyle a b n => UpdateParagraphStyle (a + d) (b + d) n
  | UpdateTextStyle a b e => UpdateTextStyle (a + d) (b + d) e
  end.

(** The segment gets a paragraph-style operation. *)
Definition is_heading (seg : segment) : bool :=
  match seg_style seg with
  | TITLE | HEADING_1 | HEADING_2 => true
  | NORMAL | LIST_ITEM => false
  end.

(** The segment gets at least one range-based operation. *)
Definition is_styled (seg : segment) : bool := is_heading seg || bold seg.

(** The requests that one iteration appends. *)
Definition step_requests (idx : Z) (seg : segment) : list request :=
  [InsertText (text seg)]
  ++ (if is_heading seg
      then [UpdateParagraphStyle idx (idx + Py.len (text seg) - 1)
              (p_style (seg_style seg))]
      else [])
  ++ (if bold seg
      then [UpdateTextStyle idx (idx + Py.len (text seg) - 1) true]
      else []).

Definition service_rejecting_create : service :=
  Service (fun _ => Raise "HttpError 403"%string)
          (fun _ _ => Ok tt).

Definition world_fresh : world := World [] (Some (Ok fresh_token)) [].

Definition world_unreadable : world :=
  World [] (Some (Raise "ValueError"%string)) [].

(** An expired token whose refresh value is the empty string. *)
Definition expired_token_no_refresh : credentials :=
  Credentials (Some (Py.lit "old-access")) true (Some []).

Definition world_expired_no_refresh : world :=
  World [] (Some (Ok expired_token_no_refresh)) [].

(** The interactive flow succeeds. *)
Definition env_flow_accepted : environment :=
  Environment true
    (fun _ => Raise "unused"%string)
    (Ok fresh_token)
    authorization_prompt
    (Ok tt)
    (fun _ => Ok service_ok)
    (Ok (Py.lit "# Title")).

(** The markdown file cannot be read. *)
Definition env_no_markdown : environment :=
  Environment true
    (fun _ => Raise "unused"%string)
    (Ok fresh_token)
    authorization_prompt
    (Ok tt)
    (fun _ => Ok service_ok)
    (Raise "FileNotFoundError"%string).

(** The remote calls that the credential manager can make. *)
Definition is_auth_call (c : remote_call) : bool :=
  match c with
  | CallRefresh _ | CallInteractiveFlow => true
  | CallCreate _ | CallBatchUpdate _ _ => false
  end.

(** The line is not empty and neither starts nor ends with whitespace. *)
Definition trimmed (line : Py.str) : bool :=
  negb (Py.isspace (hd 32%N line)) && negb (Py.isspace (last line 32%N)).

(** The number of characters that the inserts of a batch add. *)
Definition inserted_len (reqs : list request) : Z :=
  Py.len (List.concat (inserted_texts reqs)).

(** Replays a batch in order.  [inserted] is the number of characters
    inserted so far, which occupy the positions 1 to [inserted].  Every
    range must start at position 1 or later, must not end before it starts,
    and must end at a position that has been inserted by then. *)
Fixpoint ranges_within (inserted : Z) (reqs : list request) : bool :=
  match reqs with
  | [] => true
  | InsertText t :: r => ranges_within (inserted + Py.len t) r
  | UpdateParagraphStyle a b _ :: r =>
      (1 <=? a) && (a <=? b) && (b <=? inserted) && ranges_within inserted r
  | UpdateTextStyle a b _ :: r =>
      (1 <=? a) && (a <=? b) && (b <=? inserted) && ranges_within inserted r
  end.

Definition is_insert (r : request) : bool :=
  match r with InsertText _ => true | _ => false end.

Definition is_paragraph_style (r : request) : bool :=
  match r with UpdateParagraphStyle _ _ _ => true | _ => false end.

Definition is_text_style (r : request) : bool :=
  match r with UpdateTextStyle _ _ _ => true | _ => false end.

(** * Properties *)

Ltac run :=
  unfold call_create, call_batchUpdate, refresh_flow, interactive_flow,
    save_token, load_token, print, log_call, lift, bind, ret;
  cbn [fst snd stdout token_json remote_calls].


(** ** Strings *)

Section StringFacts.

Lemma startswith_app (p t : Py.str) : Py.startswith p (p ++ t) = true.
Proof.
  induction p as [|x p IH]; simpl; [reflexivity|].
  now rewrite N.eqb_refl, IH.
Qed.

Lemma startswith_inv (p s : Py.str) :
  Py.startswith p s = true -> s = p ++ skipn (List.length p) s.
Proof.
  revert s; induction p as [|x p IH]; intros [|y s] H; simpl in *;
    try reflexivity; try discriminate.
  apply andb_true_iff in H as [Hx Hp].
  apply N.eqb_eq in Hx; subst y.
  f_equal; now apply IH.
Qed.

Lemma endswith_inv (p s : Py.str) :
  Py.endswith p s = true -> exists t, s = t ++ p.
Proof.
  unfold Py.endswith; intros H.
  apply startswith_inv in H.
  exists (rev (skipn (List.length (rev p)) (rev s))).
  rewrite <- (rev_involutive s) at 1.
  rewrite H at 1.
  now rewrite rev_app_distr, rev_involutive.
Qed.

Lemma slice_from_skipn (s : Py.str) (a : nat) :
  Py.slice_from s (Z.of_nat a) = skipn a s.
Proof.
  unfold Py.slice_from, Py.bound, Py.len.
  destruct (Z.ltb_spec (Z.of_nat a) 0) as [Hneg|_]; [lia|].
  destruct (Z.le_ge_cases (Z.of_nat a) (Z.of_nat (List.length s))) as [Hle|Hge].
  - now rewrite Z.min_r, Nat2Z.id by lia.
  - rewrite Z.min_l, Nat2Z.id by lia.
    rewrite !skipn_all2; [reflexivity| lia | lia].
Qed.

Lemma lstrip_spaces (ws s : Py.str) :
  forallb Py.isspace ws = true -> Py.lstrip (ws ++ s) = Py.lstrip s.
Proof.
  induction ws as [|c ws IH]; simpl; [reflexivity|].
  intros H; apply andb_true_iff in H as [Hc Hws].
  now rewrite Hc, IH.
Qed.

Lemma strip_leading_spaces (ws s : Py.str) :
  forallb Py.isspace ws = true -> Py.strip (ws ++ s) = Py.strip s.
Proof.
  intros H; unfold Py.strip; now rewrite lstrip_spaces.
Qed.

Lemma strip_all_spaces (ws : Py.str) :
  forallb Py.isspace ws = true -> Py.strip ws = [].
Proof.
  intros H.
  rewrite <- (app_nil_r ws), strip_leading_spaces by assumption.
  reflexivity.
Qed.

(** Removing the occurrences of "*" removes every asterisk. *)
Lemma replace_star (s : Py.str) :
  Py.replace (Py.lit "*") [] s = strip_markers s.
Proof.
  unfold Py.replace.
  change (Py.lit "*") with [42%N].
  induction s as [|c s IH]; [reflexivity|].
  cbn -[N.eqb]. unfold not_star, STAR.
  rewrite N.eqb_sym, andb_true_r.
  destruct (c =? 42)%N; cbn -[N.eqb]; now rewrite IH.
Qed.

(** Removing the occurrences of "**" removes asterisks only. *)
Lemma replace_two_stars_go (s : Py.str) :
  strip_markers (Py.replace_go [42%N; 42%N] [] 0 s) = strip_markers s
  /\ (forall t, s = 42%N :: t ->
        strip_markers (Py.replace_go [42%N; 42%N] [] 1 s) = strip_markers s).
Proof.
  unfold strip_markers.
  induction s as [|c s [IH0 IH1]]; split.
  - reflexivity.
  - intros t H; discriminate.
  - cbn -[N.eqb filter].
    destruct (N.eqb_spec 42 c) as [<-|Hc].
    + destruct s as [|d s]; [reflexivity|].
      destruct (N.eqb_spec 42 d) as [<-|Hd].
      * exact (IH1 s eq_refl).
      * change (filter not_star (42%N :: Py.replace_go [42%N; 42%N] [] 0 (d :: s))
                = filter not_star (42%N :: d :: s)).
        change (filter not_star (Py.replace_go [42%N; 42%N] [] 0 (d :: s))
                = filter not_star (d :: s)).
        exact IH0.
    + rewrite andb_false_l.
      change (filter not_star (c :: Py.replace_go [42%N; 42%N] [] 0 s))
        with (if not_star c
              then c :: filter not_star (Py.replace_go [42%N; 42%N] [] 0 s)
              else filter not_star (Py.replace_go [42%N; 42%N] [] 0 s)).
      rewrite IH0. reflexivity.
  - intros t H; injection H as -> ->.
    exact IH0.
Qed.

Lemma clean_markers_filter (s : Py.str) :
  clean_markers s = strip_markers s.
Proof.
  unfold clean_markers. rewrite replace_star.
  change (Py.lit "**") with [42%N; 42%N].
  apply (replace_two_stars_go s).
Qed.

(** The slice [content[2:-2]] of a content between two "**" markers
    drops asterisks only. *)
Lemma bold_slice_markers (c : Py.str) :
  Py.startswith (Py.lit "**") c = true ->
  Py.endswith (Py.lit "**") c = true ->
  strip_markers (Py.slice c 2 (-2)) = strip_markers c.
Proof.
  intros Hs He.
  apply startswith_inv in Hs.
  apply endswith_inv in He as [t He].
  change (Py.lit "**") with [42%N; 42%N] in *.
  destruct t as [|x [|y t]].
  - subst c. reflexivity.
  - rewrite He in Hs. injection Hs as ->. subst c. reflexivity.
  - rewrite He in Hs. injection Hs as -> ->. subst c.
    assert (Hsl : Py.slice (42%N :: 42%N :: t ++ [42%N; 42%N]) 2 (-2) = t).
    { unfold Py.slice, Py.bound, Py.len.
      cbn [List.length]. rewrite length_app. cbn [List.length].
      destruct (Z.ltb_spec 2 0) as [?|_]; [lia|].
      destruct (Z.ltb_spec (-2) 0) as [_|?]; [|lia].
      rewrite Z.min_r, Z.max_r by lia.
      replace (Z.to_nat 2) with 2%nat by reflexivity.
      cbn [skipn].
      replace (Z.to_nat _) with (List.length t + 0)%nat by lia.
      rewrite firstn_app_2. cbn [firstn]. apply app_nil_r. }
    cbn [app]. rewrite Hsl. unfold strip_markers.
    cbn [filter]. change (not_star 42) with false. cbv iota.
    rewrite filter_app. cbn [filter]. change (not_star 42) with false.
    cbv iota. now rewrite app_nil_r.
Qed.

(** The text of a segment is its content without asterisks, plus the
    newline, whether or not the content was detected as bold. *)
Lemma segment_text_markers (c : Py.str) :
  segment_text c = strip_markers c ++ [NL].
Proof.
  unfold segment_text, detect_bold.
  destruct (Py.startswith (Py.lit "**") c) eqn:Hs;
    [destruct (Py.endswith (Py.lit "**") c) eqn:He|];
    cbn [andb snd]; rewrite clean_markers_filter; [|reflexivity..].
  unfold strip_markers at 1. fold (strip_markers (Py.slice c 2 (-2))).
  now rewrite bold_slice_markers.
Qed.

End StringFacts.

(** ** The parser *)

Section ParserFacts.

(** The source tests "# " before "## " before "### "; the specification
    lists them the other way round.  The prefixes exclude each other, so
    both orders classify every line alike. *)
Lemma determine_style_precedence (line : Py.str) :
  determine_style line = spec_determine_style line.
Proof.
  unfold determine_style, spec_determine_style.
  change 2 with (Z.of_nat 2); change 3 with (Z.of_nat 3);
    change 4 with (Z.of_nat 4).
  rewrite !slice_from_skipn.
  destruct (Py.startswith (Py.lit "### ") line) eqn:H3.
  { apply startswith_inv in H3. rewrite H3. reflexivity. }
  destruct (Py.startswith (Py.lit "## ") line) eqn:H2.
  { apply startswith_inv in H2. rewrite H2. reflexivity. }
  destruct (Py.startswith (Py.lit "# ") line) eqn:H1; [reflexivity|].
  destruct (Py.startswith (Py.lit "- ") line); reflexivity.
Qed.

Lemma spec_style_heading_2 (line : Py.str) :
  Py.startswith (Py.lit "### ") line = true ->
  spec_determine_style line = (HEADING_2, skipn 4 line).
Proof.
  intros H. unfold spec_determine_style. now rewrite H.
Qed.

Lemma spec_style_heading_1 (line : Py.str) :
  Py.startswith (Py.lit "## ") line = true ->
  spec_determine_style line = (HEADING_1, skipn 3 line).
Proof.
  intros H. unfold spec_determine_style.
  apply startswith_inv in H. now rewrite H.
Qed.

Lemma spec_style_title (line : Py.str) :
  Py.startswith (Py.lit "# ") line = true ->
  spec_determine_style line = (TITLE, skipn 2 line).
Proof.
  intros H. unfold spec_determine_style.
  apply startswith_inv in H. now rewrite H.
Qed.

Lemma spec_style_list_item (line : Py.str) :
  Py.startswith (Py.lit "- ") line = true
  \/ Py.startswith (Py.lit "* ") line = true ->
  spec_determine_style line = (LIST_ITEM, TAB :: skipn 2 line).
Proof.
  intros [H|H]; unfold spec_determine_style;
    apply startswith_inv in H; now rewrite H.
Qed.

Lemma spec_style_normal (line : Py.str) :
  Py.startswith (Py.lit "### ") line = false ->
  Py.startswith (Py.lit "## ") line = false ->
  Py.startswith (Py.lit "# ") line = false ->
  Py.startswith (Py.lit "- ") line = false ->
  Py.startswith (Py.lit "* ") line = false ->
  spec_determine_style line = (NORMAL, line).
Proof.
  intros H3 H2 H1 Hd Hs. unfold spec_determine_style.
  now rewrite H3, H2, H1, Hd, Hs.
Qed.

Lemma parse_step_segment (acc : list segment) (raw : Py.str) :
  parse_step (ParseState acc None) raw
  = ParseState (acc ++ [line_segment raw]) None.
Proof.
  unfold parse_step, line_segment, segment_text.
  destruct (Py.strip raw) as [|c l]; [reflexivity|].
  cbn [Py.truthy negb segments current_segment].
  destruct (determine_style (c :: l)) as [sty content].
  cbn [fst snd].
  destruct (detect_bold content) as [b content'].
  reflexivity.
Qed.

(** [current_segment] is never assigned a segment: the loop appends one
    segment per line. *)
Lemma parse_loop_segments (lines : list Py.str) (acc : list segment) :
  fold_left parse_step lines (ParseState acc None)
  = ParseState (acc ++ map line_segment lines) None.
Proof.
  revert acc; induction lines as [|raw lines IH]; intros acc; cbn [fold_left map].
  - now rewrite app_nil_r.
  - rewrite parse_step_segment, IH, <- app_assoc. reflexivity.
Qed.

Lemma parse_lines_map (lines : list Py.str) :
  parse_lines lines = map line_segment lines.
Proof.
  unfold parse_lines. now rewrite parse_loop_segments.
Qed.

Lemma parse_lines_app (l1 l2 : list Py.str) :
  parse_lines (l1 ++ l2) = parse_lines l1 ++ parse_lines l2.
Proof.
  rewrite !parse_lines_map. apply map_app.
Qed.

Lemma line_segment_text (raw : Py.str) :
  text (line_segment raw) = line_text raw.
Proof.
  unfold line_segment, line_text.
  destruct (Py.strip raw) as [|c l] eqn:E; [reflexivity|].
  cbn [text]. now rewrite segment_text_markers, determine_style_precedence.
Qed.

Lemma line_segment_indented (ws raw : Py.str) :
  forallb Py.isspace ws = true ->
  line_segment (ws ++ raw) = line_segment raw.
Proof.
  intros H. unfold line_segment. now rewrite strip_leading_spaces.
Qed.

Lemma line_segment_whitespace (ws : Py.str) :
  forallb Py.isspace ws = true -> line_segment ws = blank_segment.
Proof.
  intros H. unfold line_segment. now rewrite strip_all_spaces.
Qed.

End ParserFacts.

(** ** Claims about the parser *)

(** C7, as stated, fails on the input line itself.  The non-blank line
    "### " followed by its terminator begins with "### ", yet it is trimmed
    to "###" and parses to NORMAL text; the line "  # Title" begins with
    none of the markers, yet it parses to a TITLE. *)
Lemma raw_prefix_does_not_decide :
  Py.startswith (Py.lit "### ") (Py.lit "### " ++ [NL]) = true
  /\ Py.strip (Py.lit "### " ++ [NL]) <> []
  /\ parse_lines [Py.lit "### " ++ [NL]]
     = [Segment (Py.lit "###" ++ [NL]) NORMAL false]
  /\ fst (spec_determine_style (Py.lit "  # Title")) = NORMAL
  /\ parse_lines [Py.lit "  # Title"]
     = [Segment (Py.lit "Title" ++ [NL]) TITLE false].
Proof.
  repeat split; try reflexivity. vm_compute. discriminate.
Qed.

(** C7, amended. A non-blank line, once trimmed, is styled by its prefix: "### "
    gives HEADING_2, "## " gives HEADING_1, "# " gives TITLE, "- " and "* "
    give LIST_ITEM, any other line gives NORMAL.  The content that the
    segment text is made from is the line without the matched prefix (after
    a tab, for a list item). *)
Theorem style_follows_prefix_precedence (raw : Py.str) :
  Py.strip raw <> [] ->
  let line := Py.strip raw in
  exists seg,
    parse_lines [raw] = [seg]
    /\ (Py.startswith (Py.lit "### ") line = true ->
        seg_style seg = HEADING_2 /\ text seg = segment_text (skipn 4 line))
    /\ (Py.startswith (Py.lit "## ") line = true ->
        seg_style seg = HEADING_1 /\ text seg = segment_text (skipn 3 line))
    /\ (Py.startswith (Py.lit "# ") line = true ->
        seg_style seg = TITLE /\ text seg = segment_text (skipn 2 line))
    /\ (Py.startswith (Py.lit "- ") line = true
        \/ Py.startswith (Py.lit "* ") line = true ->
        seg_style seg = LIST_ITEM
        /\ text seg = segment_text (TAB :: skipn 2 line))
    /\ (Py.startswith (Py.lit "### ") line = false ->
        Py.startswith (Py.lit "## ") line = false ->
        Py.startswith (Py.lit "# ") line = false ->
        Py.startswith (Py.lit "- ") line = false ->
        Py.startswith (Py.lit "* ") line = false ->
        seg_style seg = NORMAL /\ text seg = segment_text line).
Proof.
  intros Hne line.
  exists (line_segment raw).
  split; [now rewrite parse_lines_map|].
  unfold line_segment. fold line.
  destruct line as [|c l] eqn:E; [contradiction|].
  rewrite determine_style_precedence.
  cbn [seg_style text].
  split; [|split; [|split; [|split]]].
  - intros H. rewrite spec_style_heading_2 by exact H. now split.
  - intros H. rewrite spec_style_heading_1 by exact H. now split.
  - intros H. rewrite spec_style_title by exact H. now split.
  - intros H. rewrite spec_style_list_item by exact H. now split.
  - intros H3 H2 H1 Hd Hs. rewrite spec_style_normal by assumption. now split.
Qed.

Lemma style_follows_prefix_precedence_witness :
  Py.strip (Py.lit "### Sub") <> []
  /\ exists seg,
       parse_lines [Py.lit "### Sub"] = [seg]
       /\ seg_style seg = HEADING_2
       /\ text seg = Py.lit "Sub" ++ [NL].
Proof.
  assert (H : Py.strip (Py.lit "### Sub") <> []) by (vm_compute; discriminate).
  split; [exact H|].
  destruct (style_follows_prefix_precedence (Py.lit "### Sub") H)
    as (seg & Hp & H3 & _).
  exists seg. split; [exact Hp|]. apply H3. reflexivity.
Defined.

(** C9. The line "- item", and equally "* item", yields exactly one
    segment: style LIST_ITEM, not bold, text tab + "item" + newline. *)
Theorem list_item_line :
  parse_markdown (Py.lit "- item")
    = [Segment (TAB :: Py.lit "item" ++ [NL]) LIST_ITEM false]
  /\ parse_markdown (Py.lit "* item")
    = [Segment (TAB :: Py.lit "item" ++ [NL]) LIST_ITEM false]
  /\ parse_markdown (Py.lit "- item" ++ [NL])
    = [Segment (TAB :: Py.lit "item" ++ [NL]) LIST_ITEM false]
  /\ parse_markdown (Py.lit "* item" ++ [NL])
    = [Segment (TAB :: Py.lit "item" ++ [NL]) LIST_ITEM false].
Proof.
  repeat split; vm_compute; reflexivity.
Qed.

(** C2, as stated, fails: for the file "# Title" the segment texts make
    "Title" + newline, while the content modulo trailing-whitespace
    trimming and emphasis-marker stripping is still "# Title" + newline.
    Normalising the segment texts the same way does not help. *)
Lemma body_text_is_not_normalised_content :
  let content := Py.lit "# Title" ++ [NL] in
  body_text (parse_markdown content) = Py.lit "Title" ++ [NL]
  /\ spec_normalise content = Py.lit "# Title" ++ [NL]
  /\ body_text (parse_markdown content) <> spec_normalise content
  /\ spec_normalise (body_text (parse_markdown content))
     <> spec_normalise content.
Proof.
  vm_compute. repeat split; discriminate.
Qed.

(** C2, amended. The parser makes one segment per line, in order, and the
    segment texts concatenated are the lines, each trimmed on both sides,
    without its heading marker or with a tab for its list marker, without
    any asterisk, and newline-terminated. *)
Theorem body_text_of_parse (content : Py.str) :
  body_text (parse_markdown content)
    = List.concat (map line_text (Py.readlines content))
  /\ List.length (parse_markdown content)
     = List.length (Py.readlines content).
Proof.
  unfold body_text, parse_markdown.
  rewrite parse_lines_map, map_map, length_map.
  split; [|reflexivity].
  f_equal. apply map_ext. exact line_segment_text.
Qed.

(** ** The batch builder *)

Section BuilderFacts.

Lemma build_step_index (st : build_state) (seg : segment) :
  current_index (build_step st seg) = current_index st + Py.len (text seg).
Proof. reflexivity. Qed.

Lemma build_loop_snoc (segs : list segment) (seg : segment) (st : build_state) :
  fold_left build_step (segs ++ [seg]) st
  = build_step (fold_left build_step segs st) seg.
Proof. now rewrite fold_left_app. Qed.

Lemma ranges_app (r1 r2 : list request) :
  ranges (r1 ++ r2) = ranges r1 ++ ranges r2.
Proof.
  induction r1 as [|[t|a b n|a b e] r1 IH]; cbn [ranges app];
    now rewrite ?IH.
Qed.

Lemma len_nonneg (s : Py.str) : 0 <= Py.len s.
Proof. unfold Py.len; lia. Qed.

(** The ranges that one iteration adds. *)
Lemma build_step_ranges (st : build_state) (seg : segment) :
  exists new,
    ranges (requests (build_step st seg)) = ranges (requests st) ++ new
    /\ Forall (fun r => r = (current_index st,
                             current_index st + Py.len (text seg) - 1)) new.
Proof.
  unfold build_step. cbn [requests].
  destruct (negb (style_eqb (seg_style seg) NORMAL)
            && negb (style_eqb (seg_style seg) LIST_ITEM));
    destruct (bold seg); rewrite ?ranges_app; cbn [ranges];
    rewrite ?app_nil_r, <- ?app_assoc; eexists; split;
    try reflexivity; repeat constructor.
  now rewrite app_nil_r.
Qed.

(** Every range starts at the cursor or later, and ends before the
    position that the cursor has reached once its segment is inserted. *)
Lemma ranges_within_inserted_text (segs : list segment) (st : build_state) :
  1 <= current_index st ->
  Forall (fun r => 1 <= fst r /\ snd r < current_index st) (ranges (requests st)) ->
  let st' := fold_left build_step segs st in
  1 <= current_index st'
  /\ Forall (fun r => 1 <= fst r /\ snd r < current_index st')
            (ranges (requests st')).
Proof.
  revert st; induction segs as [|seg segs IH]; intros st H1 HF; cbn [fold_left].
  - now split.
  - apply IH.
    + rewrite build_step_index. pose proof (len_nonneg (text seg)). lia.
    + destruct (build_step_ranges st seg) as (new & -> & Hnew).
      rewrite build_step_index. pose proof (len_nonneg (text seg)).
      apply Forall_app; split.
      * eapply Forall_impl; [|exact HF]. cbn beta. intros r [? ?]. lia.
      * eapply Forall_impl; [|exact Hnew]. cbn beta. intros r ->.
        cbn [fst snd]. lia.
Qed.

Lemma cursor_at_start (segs : list segment) : cursor_at segs 0 = 1.
Proof. reflexivity. Qed.

Lemma cursor_at_next (segs : list segment) (k : nat) (seg : segment) :
  nth_error segs k = Some seg ->
  cursor_at segs (S k) = cursor_at segs k + Py.len (text seg).
Proof.
  intros H. unfold cursor_at, build_requests.
  assert (E : firstn (S k) segs = firstn k segs ++ [seg]).
  { revert segs H; induction k as [|k IH]; intros [|s segs] H;
      try discriminate; cbn in H.
    - now injection H as ->.
    - cbn [firstn app]. f_equal. now apply IH. }
  now rewrite E, build_loop_snoc, build_step_index.
Qed.

End BuilderFacts.

(** ** Claims about the batch builder *)

(** C1. The guarantee fails on the code.  The file whose only line is
    "# *" parses to a TITLE segment whose text is a lone newline, and the
    builder emits a paragraph-style operation over the empty range [1, 1);
    the file whose only line is "***" (a horizontal rule) likewise gets a
    text-style operation over [1, 1).  A line with text, such as
    "# **bold**", gets the non-empty range [1, 5) twice. *)
Theorem marker_only_line_gets_empty_range :
  parse_markdown (Py.lit "# *") = [Segment [NL] TITLE false]
  /\ requests (build_requests (parse_markdown (Py.lit "# *")))
     = [InsertText [NL]; UpdateParagraphStyle 1 1 NS_TITLE]
  /\ parse_markdown (Py.lit "***") = [Segment [NL] NORMAL true]
  /\ requests (build_requests (parse_markdown (Py.lit "***")))
     = [InsertText [NL]; UpdateTextStyle 1 1 true]
  /\ ranges (requests (build_requests (parse_markdown (Py.lit "# **bold**"))))
     = [(1, 5); (1, 5)].
Proof.
  repeat split; vm_compute; reflexivity.
Qed.

(** C6. For a TITLE segment "Title" and a NORMAL segment "Body", each with
    its newline, the paragraph-style operation covers [1, 6) and the cursor
    is 7 when the second segment is reached.  In general the cursor starts
    at 1 and advances by the length of the text of each segment. *)
Theorem cursor_bookkeeping :
  requests (build_requests title_and_body)
    = [ InsertText (Py.lit "Title" ++ [NL]);
        UpdateParagraphStyle 1 6 NS_TITLE;
        InsertText (Py.lit "Body" ++ [NL]) ]
  /\ cursor_at title_and_body 1 = 7
  /\ (forall segs, cursor_at segs 0 = 1)
  /\ (forall segs k seg,
        nth_error segs k = Some seg ->
        cursor_at segs (S k) = cursor_at segs k + Py.len (text seg)).
Proof.
  split; [reflexivity|].
  split; [reflexivity|].
  split; [exact cursor_at_start | exact cursor_at_next].
Qed.

Lemma cursor_bookkeeping_witness :
  cursor_at title_and_body 2 = 7 + 5.
Proof.
  destruct cursor_bookkeeping as (_ & H1 & _ & Hstep).
  rewrite <- H1.
  exact (Hstep title_and_body 1%nat (Segment (Py.lit "Body" ++ [NL]) NORMAL false)
           eq_refl).
Defined.

(** C5. With no segments, [create_document] makes the create call with the
    given title and no other remote call; when the create call succeeds it
    returns normally. *)
Theorem empty_segments_no_batch (svc : service) (title : Py.str) (w : world) :
  remote_calls (snd (create_document svc title [] w))
    = remote_calls w ++ [CallCreate title]
  /\ (forall d, documents_create svc title = Ok d ->
        fst (create_document svc title [] w) = Ok VNone).
Proof.
  unfold create_document. cbn [build_requests fold_left build_init requests].
  run.
  destruct (documents_create svc title) as [d|e]; cbn; split;
    try reflexivity; intros d' H; congruence.
Qed.

Lemma empty_segments_no_batch_witness :
  fst (create_document service_ok DOCUMENT_TITLE [] world0) = Ok VNone.
Proof.
  exact (proj2 (empty_segments_no_batch service_ok DOCUMENT_TITLE world0)
           (Document (Some (Py.lit "doc-1"))) eq_refl).
Defined.

(** C3, as stated, fails: when both remote calls succeed and the service
    answers with the identifier "doc-1", [create_document] returns [None],
    not the identifier. *)
Lemma create_document_returns_none :
  fst (create_document service_ok DOCUMENT_TITLE title_and_body world0)
    = Ok VNone
  /\ fst (create_document service_ok DOCUMENT_TITLE title_and_body world0)
    <> Ok (VStr (Py.lit "doc-1")).
Proof.
  split; [vm_compute; reflexivity | vm_compute; discriminate].
Qed.

(** C3, amended. [create_document] returns [None]; it prints the
    identifier of the created document before the batch call.  When the
    batch call is rejected, the identifier has been printed and the error
    of the service is raised unchanged; the two closing lines are not
    printed. *)
Theorem create_document_reports_id
    (svc : service) (title : Py.str) (segs : list segment) (w : world)
    (d : document) :
  documents_create svc title = Ok d ->
  let id := doc_get_documentId d in
  let reqs := requests (build_requests segs) in
  let out := stdout w ++ [Py.lit "Created document with title: " ++ title]
                      ++ [Py.lit "Document ID: " ++ format id] in
  (reqs = [] ->
     create_document svc title segs w
     = (Ok VNone,
        World out (token_json w) (remote_calls w ++ [CallCreate title])))
  /\ (reqs <> [] ->
      documents_batchUpdate svc id reqs = Ok tt ->
      create_document svc title segs w
      = (Ok VNone,
         World (out ++ [Py.lit "Content inserted and formatted."]
                    ++ [Py.lit "View your document here: https://docs.google.com/document/d/"
                        ++ format id])
               (token_json w)
               (remote_calls w ++ [CallCreate title]
                               ++ [CallBatchUpdate id reqs])))
  /\ (forall e,
      reqs <> [] ->
      documents_batchUpdate svc id reqs = Raise e ->
      create_document svc title segs w
      = (Raise e,
         World out (token_json w)
               (remote_calls w ++ [CallCreate title]
                               ++ [CallBatchUpdate id reqs]))).
Proof.
  intros Hc id reqs out.
  unfold create_document. run. rewrite Hc. cbn [fst snd].
  fold id. fold reqs.
  split; [|split].
  - intros ->. unfold out. now rewrite <- app_assoc.
  - intros Hne Hb. destruct reqs as [|r reqs'] eqn:E; [contradiction|].
    run. rewrite Hb. unfold out. now rewrite <- !app_assoc.
  - intros e Hne Hb. destruct reqs as [|r reqs'] eqn:E; [contradiction|].
    run. rewrite Hb. unfold out. now rewrite <- !app_assoc.
Qed.

Lemma create_document_reports_id_witness :
  fst (create_document service_rejecting_batch DOCUMENT_TITLE title_and_body world0)
    = Raise "HttpError 400"%string
  /\ In (Py.lit "Document ID: doc-1")
        (stdout (snd (create_document service_rejecting_batch DOCUMENT_TITLE
                        title_and_body world0))).
Proof.
  assert (Hne : requests (build_requests title_and_body) <> [])
    by (vm_compute; discriminate).
  pose proof (proj2 (proj2 (create_document_reports_id service_rejecting_batch
                DOCUMENT_TITLE title_and_body world0
                (Document (Some (Py.lit "doc-1"))) eq_refl))
              "HttpError 400"%string Hne eq_refl) as H.
  rewrite H. split; [reflexivity|].
  cbn [snd stdout]. right. left. reflexivity.
Defined.

(** ** The credential manager *)

Section CredentialFacts.

Lemma expired_not_valid (c : credentials) : expired c = true -> valid c = false.
Proof.
  unfold valid. intros ->. now destruct (token c).
Qed.

Lemma print_all_lines (lines : list Py.str) (w : world) :
  print_all lines w
  = (Ok tt, World (stdout w ++ lines) (token_json w) (remote_calls w)).
Proof.
  revert w; induction lines as [|l lines IH]; intros w; cbn [print_all].
  - unfold ret. destruct w. cbn. now rewrite app_nil_r.
  - unfold bind, print. rewrite IH. cbn [stdout token_json remote_calls].
    now rewrite <- app_assoc.
Qed.

(** The credential step, by the state of [token.json]. *)
Lemma get_credentials_paths (env : environment) (w : world) :
  get_credentials env w
  = match token_json w with
    | None => interactive_flow env w
    | Some (Raise e) => (Raise e, w)
    | Some (Ok c) =>
        if valid c then (Ok (Some c), w)
        else if expired c && has_refresh c then refresh_flow env c w
        else interactive_flow env w
    end.
Proof.
  unfold get_credentials, bind, load_token.
  destruct (token_json w) as [[c|e]|]; try reflexivity.
  destruct (valid c); cbn [negb]; [reflexivity|].
  now destruct (expired c && has_refresh c).
Qed.

Lemma get_credentials_no_usable_token (env : environment) (w : world) :
  no_usable_token w -> get_credentials env w = interactive_flow env w.
Proof.
  intros [Hn | (c & Ht & Hv & Hr)]; rewrite get_credentials_paths.
  - now rewrite Hn.
  - now rewrite Ht, Hv, Hr.
Qed.

(** The interactive flow when [credentials.json] is present. *)
Lemma interactive_flow_present (env : environment) (w : world) :
  credentials_json_exists env = true ->
  interactive_flow env w
  = match run_flow env with
    | Raise e => (Raise e, after_flow env w)
    | Ok c =>
        match open_token_for_writing env with
        | Ok _ => (Ok (Some c),
                   World (stdout w ++ flow_output env) (Some (Ok c))
                         (remote_calls w ++ [CallInteractiveFlow]))
        | Raise e => (Raise e, after_flow env w)
        end
    end.
Proof.
  intros Hc. unfold interactive_flow. rewrite Hc. cbn [negb].
  unfold bind at 1. unfold log_call at 1.
  unfold bind at 1. rewrite print_all_lines.
  cbn [stdout token_json remote_calls].
  unfold after_flow. run.
  destruct (run_flow env) as [c|e]; [|reflexivity].
  now destruct (open_token_for_writing env) as [[]|e].
Qed.

(** The refresh path. *)
Lemma refresh_flow_cases (env : environment) (c : credentials) (w : world) :
  refresh_flow env c w
  = let w1 := World (stdout w) (token_json w)
                    (remote_calls w ++ [CallRefresh c]) in
    match refresh env c with
    | Raise e => (Raise e, w1)
    | Ok c' =>
        match open_token_for_writing env with
        | Ok _ => (Ok (Some c'),
                   World (stdout w) (Some (Ok c'))
                         (remote_calls w ++ [CallRefresh c]))
        | Raise e => (Raise e, w1)
        end
    end.
Proof.
  unfold refresh_flow. run.
  destruct (refresh env c) as [c'|e]; [|reflexivity].
  now destruct (open_token_for_writing env) as [[]|e].
Qed.

End CredentialFacts.

(** C4, as stated, fails: with an expired, refreshable token whose refresh
    is rejected, [get_credentials] raises the refresh error.  It does not
    go on to the interactive flow, although that flow would have produced a
    token here. *)
Lemma refresh_failure_aborts :
  expired expired_token = true
  /\ has_refresh expired_token = true
  /\ get_credentials env_refresh_rejected world_expired
     = (Raise "RefreshError"%string,
        World [] (Some (Ok expired_token)) [CallRefresh expired_token])
  /\ ~ In CallInteractiveFlow
         (remote_calls (snd (get_credentials env_refresh_rejected world_expired)))
  /\ fst (interactive_flow env_refresh_rejected world_expired)
     = Ok (Some fresh_token).
Proof.
  repeat split; try (vm_compute; reflexivity).
  vm_compute. intros [H|[]]. discriminate.
Qed.

(** C4, amended. With a persisted token that is expired and carries a
    refresh value, [get_credentials] attempts the refresh.  When the
    refresh succeeds and [token.json] can be written, the new token is
    stored there and returned.  When the refresh fails, its error is
    raised: nothing is written and the interactive flow is not started. *)
Theorem refresh_of_expired_token (env : environment) (w : world) (c : credentials) :
  token_json w = Some (Ok c) ->
  expired c = true ->
  has_refresh c = true ->
  let calls := remote_calls w ++ [CallRefresh c] in
  (forall c',
     refresh env c = Ok c' ->
     open_token_for_writing env = Ok tt ->
     get_credentials env w
     = (Ok (Some c'), World (stdout w) (Some (Ok c')) calls))
  /\ (forall e,
      refresh env c = Raise e ->
      get_credentials env w
      = (Raise e, World (stdout w) (token_json w) calls)).
Proof.
  intros Ht He Hr calls.
  unfold get_credentials. run.
  rewrite Ht, (expired_not_valid c He), He, Hr.
  cbn [negb andb]. run.
  split.
  - intros c1 Hc Ho. rewrite Hc, Ho. reflexivity.
  - intros e Hc. rewrite Hc, ?Ht. reflexivity.
Qed.

Lemma refresh_of_expired_token_witness :
  get_credentials env_refresh_accepted world_expired
  = (Ok (Some fresh_token),
     World [] (Some (Ok fresh_token)) [CallRefresh expired_token]).
Proof.
  exact (proj1 (refresh_of_expired_token env_refresh_accepted world_expired
                  expired_token eq_refl eq_refl eq_refl)
           fresh_token eq_refl eq_refl).
Defined.

Section MainFacts.

Variable env : environment.

Lemma interactive_flow_missing_config (w : world) :
  credentials_json_exists env = false ->
  interactive_flow env w = (Ok None, after_missing_config w).
Proof.
  intros H. unfold interactive_flow. rewrite H. cbn [negb]. run.
  unfold after_missing_config, missing_config_message.
  now rewrite <- !app_assoc.
Qed.

Lemma get_credentials_missing_config (w : world) :
  credentials_json_exists env = false ->
  no_usable_token w ->
  get_credentials env w = (Ok None, after_missing_config w).
Proof.
  intros Hc Hn. rewrite get_credentials_no_usable_token by exact Hn.
  now apply interactive_flow_missing_config.
Qed.

Lemma interactive_flow_ok (w w' : world) (r : option credentials) :
  interactive_flow env w = (Ok r, w') ->
  match r with
  | None => credentials_json_exists env = false /\ w' = after_missing_config w
  | Some c => credentials_json_exists env = true
              /\ run_flow env = Ok c
              /\ open_token_for_writing env = Ok tt
  end.
Proof.
  destruct (credentials_json_exists env) eqn:Hc.
  - rewrite interactive_flow_present by exact Hc.
    destruct (run_flow env) as [c|e]; [|discriminate].
    destruct (open_token_for_writing env) as [[]|e]; [|discriminate].
    intros H; injection H as <- <-. auto.
  - rewrite interactive_flow_missing_config by exact Hc.
    intros H; injection H as <- <-. auto.
Qed.

(** A normal return of the credential step: the missing-configuration
    case, or credentials from calls that all succeeded. *)
Lemma get_credentials_ok (w w' : world) (r : option credentials) :
  get_credentials env w = (Ok r, w') ->
  match r with
  | None => credentials_json_exists env = false
            /\ no_usable_token w
            /\ w' = after_missing_config w
  | Some c => credentials_obtained env w c
  end.
Proof.
  rewrite get_credentials_paths.
  destruct (token_json w) as [[c|e]|] eqn:Ht; [| discriminate |].
  - destruct (valid c) eqn:Hv.
    { intros H; injection H as <- <-. left. auto. }
    destruct (expired c && has_refresh c) eqn:Hr.
    + rewrite refresh_flow_cases. cbv zeta.
      destruct (refresh env c) as [c'|e] eqn:Hf; [|discriminate].
      destruct (open_token_for_writing env) as [[]|e] eqn:Ho; [|discriminate].
      intros H; injection H as <- <-. right; left. exists c. auto.
    + assert (Hn : no_usable_token w) by (right; exists c; auto).
      intros H. apply interactive_flow_ok in H.
      destruct r as [c'|].
      * right; right. split; [exact Hn | exact H].
      * destruct H as [Hc ->]. auto.
  - assert (Hn : no_usable_token w) by now left.
    intros H. apply interactive_flow_ok in H.
    destruct r as [c'|].
    + right; right. split; [exact Hn | exact H].
    + destruct H as [Hc ->]. auto.
Qed.

(** Credentials obtained on the path are what the credential step
    returns. *)
Lemma credentials_obtained_returned (w : world) (c : credentials) :
  credentials_obtained env w c ->
  exists w1, get_credentials env w = (Ok (Some c), w1).
Proof.
  intros [(Ht & Hv) | [(c0 & Ht & Hv & Hr & Hf & Ho) | (Hn & Hc & Hf & Ho)]].
  - rewrite get_credentials_paths, Ht, Hv. eauto.
  - rewrite get_credentials_paths, Ht, Hv, Hr, refresh_flow_cases, Hf, Ho.
    eauto.
  - rewrite get_credentials_no_usable_token by exact Hn.
    rewrite interactive_flow_present by exact Hc.
    rewrite Hf, Ho. eauto.
Qed.

(** A failing call of the credential step makes the step raise its
    error. *)
Lemma credential_failure_raised (w : world) (e : exn) :
  credential_failure env w e ->
  exists w1, get_credentials env w = (Raise e, w1).
Proof.
  intros [Ht | [(c0 & Ht & Hv & Hr & Hf) | (Hn & Hc & Hf)]].
  - rewrite get_credentials_paths, Ht. eauto.
  - rewrite get_credentials_paths, Ht, Hv, Hr, refresh_flow_cases.
    destruct Hf as [Hf | (c & Hf & Ho)]; rewrite Hf, ?Ho; eauto.
  - rewrite get_credentials_no_usable_token by exact Hn.
    rewrite interactive_flow_present by exact Hc.
    destruct Hf as [Hf | (c & Hf & Ho)]; rewrite Hf, ?Ho; eauto.
Qed.

End MainFacts.

(** C8, as stated, fails: with [credentials.json] absent and a
    [token.json] that exists but cannot be loaded, no valid or refreshable
    token is persisted, yet [main] raises the error of the loader and
    prints nothing. *)
Lemma unloadable_token_is_not_reported :
  credentials_json_exists env_missing_config = false
  /\ token_json world_unreadable = Some (Raise "ValueError"%string)
  /\ main env_missing_config world_unreadable
     = (Raise "ValueError"%string, world_unreadable)
  /\ stdout (snd (main env_missing_config world_unreadable)) = [].
Proof.
  repeat split.
Qed.

(** C8, amended. When [credentials.json] is absent and [token.json] is
    absent or loads to a token that is neither valid nor refreshable,
    [main] prints the three lines of instructions and returns normally: no
    exception, no remote call, [token.json] untouched.  This is the only
    failure that ends a run normally: whenever [main] returns without an
    exception otherwise, every call on the path taken succeeded; and every
    call that fails, in the credential step or after it, makes [main] raise
    the error of that call. *)
Theorem missing_config_is_reported (env : environment) (w : world) :
  (credentials_json_exists env = false ->
   no_usable_token w ->
   main env w = (Ok VNone, after_missing_config w))
  /\ (forall v w',
      main env w = (Ok v, w') ->
      (credentials_json_exists env = false
       /\ no_usable_token w
       /\ w' = after_missing_config w)
      \/ exists c svc content d,
           credentials_obtained env w c
           /\ discovery_build env c = Ok svc
           /\ read_md env = Ok content
           /\ documents_create svc DOCUMENT_TITLE = Ok d
           /\ let reqs := requests (build_requests (parse_markdown content)) in
              (reqs = []
               \/ documents_batchUpdate svc (doc_get_documentId d) reqs = Ok tt))
  /\ (forall e, credential_failure env w e -> fst (main env w) = Raise e)
  /\ (forall c e,
      credentials_obtained env w c ->
      pipeline_failure env c e ->
      fst (main env w) = Raise e).
Proof.
  split; [|split; [|split]].
  - intros Hc Hn. unfold main, bind.
    now rewrite get_credentials_missing_config.
  - intros v w'. unfold main. unfold bind at 1.
    destruct (get_credentials env w) as [[[c|]|e] w1] eqn:G; [| |discriminate];
      apply get_credentials_ok in G.
    + intros H. right.
      unfold bind, lift in H.
      destruct (discovery_build env c) as [svc|e] eqn:Hb; [|discriminate].
      destruct (read_md env) as [content|e] eqn:Hm; [|discriminate].
      unfold create_document in H. run. cbn [fst snd] in H.
      unfold call_create, call_batchUpdate, print, log_call, lift, bind, ret in H.
      cbn [fst snd stdout token_json remote_calls] in H.
      destruct (documents_create svc DOCUMENT_TITLE) as [d|e] eqn:Hd;
        [|discriminate].
      exists c, svc, content, d. repeat split; auto.
      cbv zeta.
      destruct (requests (build_requests (parse_markdown content))) as [|r reqs];
        [now left|right].
      cbn [fst snd stdout token_json remote_calls] in H.
      destruct (documents_batchUpdate svc (doc_get_documentId d) (r :: reqs))
        as [[]|e]; [reflexivity|discriminate].
    + unfold ret. intros H; injection H as <- <-. left. exact G.
  - intros e Hf. apply credential_failure_raised in Hf as (w1 & Hg).
    unfold main, bind. now rewrite Hg.
  - intros c e Hobt Hf.
    apply credentials_obtained_returned in Hobt as (w1 & Hg).
    unfold main. unfold bind at 1. rewrite Hg.
    destruct Hf as [Hb | (svc & Hb & Hf)];
      unfold bind at 1, lift at 1; rewrite Hb; [reflexivity|].
    destruct Hf as [Hm | (content & Hm & Hf)];
      unfold bind at 1, lift at 1; rewrite Hm; [reflexivity|].
    unfold create_document. run.
    destruct Hf as [Hd | (d & Hd & Hne & Hu)]; rewrite Hd; [reflexivity|].
    cbn [fst snd].
    destruct (requests (build_requests (parse_markdown content)))
      as [|r reqs]; [contradiction|].
    run. now rewrite Hu.
Qed.

Lemma missing_config_is_reported_witness :
  main env_missing_config world0
  = (Ok VNone, World missing_config_message None []).
Proof.
  exact (proj1 (missing_config_is_reported env_missing_config world0)
           eq_refl (or_introl eq_refl)).
Defined.

(** * Further properties of the script *)

(** ** More on strings *)

Section MoreStringFacts.

Lemma forallb_rev {A} (f : A -> bool) (l : list A) :
  forallb f (rev l) = forallb f l.
Proof.
  induction l as [|x l IH]; [reflexivity|].
  cbn [rev forallb]. rewrite forallb_app, IH. cbn [forallb].
  rewrite andb_true_r. apply andb_comm.
Qed.

Lemma rstrip_spaces (s ws : Py.str) :
  forallb Py.isspace ws = true -> Py.rstrip (s ++ ws) = Py.rstrip s.
Proof.
  intros H. unfold Py.rstrip.
  rewrite rev_app_distr, lstrip_spaces; [reflexivity|].
  now rewrite forallb_rev.
Qed.

Lemma lstrip_nil_spaces (s : Py.str) :
  Py.lstrip s = [] -> forallb Py.isspace s = true.
Proof.
  induction s as [|c s IH]; [reflexivity|].
  cbn [Py.lstrip forallb]. destruct (Py.isspace c); [exact IH|discriminate].
Qed.

Lemma lstrip_app (s t : Py.str) :
  Py.lstrip s <> [] -> Py.lstrip (s ++ t) = Py.lstrip s ++ t.
Proof.
  induction s as [|c s IH]; [contradiction|].
  cbn [Py.lstrip app]. destruct (Py.isspace c); [exact IH|reflexivity].
Qed.

Lemma strip_trailing_spaces (s ws : Py.str) :
  forallb Py.isspace ws = true -> Py.strip (s ++ ws) = Py.strip s.
Proof.
  intros H. unfold Py.strip.
  destruct (Py.lstrip s) as [|c l] eqn:E.
  - apply lstrip_nil_spaces in E.
    assert (Hall : forallb Py.isspace (s ++ ws) = true)
      by (rewrite forallb_app, E, H; reflexivity).
    rewrite <- (app_nil_r (s ++ ws)), lstrip_spaces by exact Hall.
    reflexivity.
  - rewrite lstrip_app by (rewrite E; discriminate).
    rewrite E. now apply rstrip_spaces.
Qed.

(** A string that neither starts nor ends with whitespace is its own
    [strip]. *)
Lemma strip_fixed (a b : N) (m : Py.str) :
  Py.isspace a = false -> Py.isspace b = false ->
  Py.strip (a :: m ++ [b]) = a :: m ++ [b].
Proof.
  intros Ha Hb. unfold Py.strip. cbn [Py.lstrip]. rewrite Ha.
  unfold Py.rstrip.
  change (a :: m ++ [b]) with ((a :: m) ++ [b]).
  rewrite rev_app_distr. cbn [rev app Py.lstrip]. rewrite Hb.
  change (b :: rev m ++ [a]) with ([b] ++ rev (a :: m)).
  now rewrite rev_app_distr, rev_involutive.
Qed.

Lemma in_lstrip (x : N) (s : Py.str) : In x (Py.lstrip s) -> In x s.
Proof.
  induction s as [|c s IH]; [easy|].
  cbn [Py.lstrip]. destruct (Py.isspace c); [|easy].
  intros H. right. now apply IH.
Qed.

Lemma in_strip (x : N) (s : Py.str) : In x (Py.strip s) -> In x s.
Proof.
  unfold Py.strip, Py.rstrip. intros H.
  apply in_rev, in_lstrip, in_rev in H. now apply in_lstrip.
Qed.

Lemma in_skipn {A} (x : A) (n : nat) (l : list A) : In x (skipn n l) -> In x l.
Proof.
  revert l; induction n as [|n IH]; intros [|y l]; cbn [skipn]; try easy.
  intros H. right. now apply IH.
Qed.

(** Every line that [readlines] returns has its only LF, if any, at its
    end. *)
Lemma split_lines_shape (s cur : Py.str) :
  ~ In NL cur ->
  Forall (fun l => exists body, (l = body ++ [NL] \/ l = body) /\ ~ In NL body)
         (Py.split_lines cur s).
Proof.
  revert cur; induction s as [|c s IH]; intros cur Hcur; cbn [Py.split_lines].
  - destruct cur as [|x cur]; constructor; [|constructor].
    exists (rev (x :: cur)). split; [now right|].
    intros H. apply in_rev in H. now apply Hcur.
  - destruct (N.eqb_spec c 10) as [->|Hc].
    + constructor; [|apply IH; easy].
      exists (rev cur). split; [now left|].
      intros H. apply in_rev in H. now apply Hcur.
    + apply IH. intros [H|H]; [|now apply Hcur].
      apply Hc. now rewrite H.
Qed.

Lemma readlines_shape (content : Py.str) :
  Forall (fun l => exists body, (l = body ++ [NL] \/ l = body) /\ ~ In NL body)
         (Py.readlines content).
Proof.
  apply split_lines_shape. easy.
Qed.

Lemma strip_markers_in (x : N) (s : Py.str) :
  In x (strip_markers s) <-> In x s /\ x <> STAR.
Proof.
  unfold strip_markers. rewrite filter_In. unfold not_star.
  rewrite negb_true_iff, N.eqb_neq. reflexivity.
Qed.

Lemma strip_markers_id (s : Py.str) :
  ~ In STAR s -> strip_markers s = s.
Proof.
  unfold strip_markers.
  induction s as [|c s IH]; [reflexivity|].
  intros H. cbn [filter]. unfold not_star at 1.
  destruct (N.eqb_spec c STAR) as [->|Hc].
  - exfalso. apply H. now left.
  - cbn [negb]. f_equal. apply IH. intros Hin. apply H. now right.
Qed.

Lemma strip_trimmed (line : Py.str) :
  trimmed line = true -> Py.strip line = line.
Proof.
  unfold trimmed. intros H. apply andb_true_iff in H as [Ha Hb].
  apply negb_true_iff in Ha, Hb.
  destruct line as [|a l]; [discriminate|]. cbn [hd] in Ha.
  destruct l as [|x l] using rev_ind.
  - unfold Py.strip, Py.rstrip. cbn [Py.lstrip]. rewrite Ha.
    cbn [rev app Py.lstrip]. now rewrite Ha.
  - change (a :: l ++ [x]) with ((a :: l) ++ [x]) in Hb.
    rewrite last_last in Hb. now apply strip_fixed.
Qed.

End MoreStringFacts.

(** ** More on the parser *)

Section MoreParserFacts.

Lemma endswith_app (p s : Py.str) : Py.endswith p (s ++ p) = true.
Proof.
  unfold Py.endswith. rewrite rev_app_distr. apply startswith_app.
Qed.

Lemma no_star_not_bold (s : Py.str) :
  ~ In STAR s -> detect_bold s = (false, s).
Proof.
  intros H. unfold detect_bold.
  destruct s as [|c s]; [reflexivity|].
  cbn [Py.startswith Py.lit list_ascii_of_string List.map].
  destruct (N.eqb_spec (N_of_ascii "*") c) as [E|_]; [|reflexivity].
  exfalso. apply H. left. now rewrite <- E.
Qed.

Lemma in_spec_style (x : N) (line : Py.str) :
  In x (snd (spec_determine_style line)) -> x = TAB \/ In x line.
Proof.
  unfold spec_determine_style.
  repeat match goal with
         | |- context [if ?b then _ else _] => destruct b
         end; cbn [snd]; intros H;
    try (right; now apply in_skipn in H);
    try (destruct H as [H|H]; [now left | right; now apply in_skipn in H]).
  now right.
Qed.

(** The segment of a non-blank line, from its trimmed form. *)
Lemma line_segment_of_stripped (raw line : Py.str) :
  Py.strip raw = line ->
  line <> [] ->
  line_segment raw
  = Segment (strip_markers (snd (spec_determine_style line)) ++ [NL])
            (fst (spec_determine_style line))
            (fst (detect_bold (snd (spec_determine_style line)))).
Proof.
  intros <- Hne. unfold line_segment.
  destruct (Py.strip raw) as [|c l]; [contradiction|].
  now rewrite determine_style_precedence, segment_text_markers.
Qed.

Lemma line_segment_trailing (raw ws : Py.str) :
  forallb Py.isspace ws = true ->
  line_segment (raw ++ ws) = line_segment raw.
Proof.
  intros H. unfold line_segment. now rewrite strip_trailing_spaces.
Qed.

Lemma detect_bold_flag (c : Py.str) :
  fst (detect_bold c)
  = Py.startswith (Py.lit "**") c && Py.endswith (Py.lit "**") c.
Proof.
  unfold detect_bold.
  now destruct (Py.startswith (Py.lit "**") c && Py.endswith (Py.lit "**") c).
Qed.

End MoreParserFacts.

(** C10. Whitespace around a line is stripped before classification.  A
    line made of whitespace, then a trimmed line, then whitespace, gives the
    segment of the trimmed line alone: its style is the one of the marker
    that the trimmed line starts with, and its text is made from the trimmed
    line only, so no indentation of the source reaches it.  A line parses
    the same with and without whitespace in front of it, and a line of
    whitespace only is a blank line. *)
Theorem leading_whitespace_ignored
    (ws ws' line raw : Py.str) (before after : list Py.str) :
  forallb Py.isspace ws = true ->
  forallb Py.isspace ws' = true ->
  trimmed line = true ->
  let content := snd (spec_determine_style line) in
  parse_lines (before ++ (ws ++ line ++ ws') :: after)
    = parse_lines before
      ++ Segment (strip_markers content ++ [NL])
                 (fst (spec_determine_style line))
                 (Py.startswith (Py.lit "**") content
                  && Py.endswith (Py.lit "**") content)
         :: parse_lines after
  /\ parse_lines (before ++ (ws ++ raw) :: after)
     = parse_lines (before ++ raw :: after)
  /\ parse_lines (before ++ ws :: after)
     = parse_lines before ++ blank_segment :: parse_lines after.
Proof.
  intros Hws Hws' Htrim content.
  rewrite !parse_lines_map, !map_app. cbn [map].
  rewrite (line_segment_indented ws (line ++ ws') Hws),
    (line_segment_trailing line ws' Hws'),
    (line_segment_indented ws raw Hws), (line_segment_whitespace ws Hws).
  split; [|split; reflexivity].
  rewrite (line_segment_of_stripped line line (strip_trimmed line Htrim)).
  - fold content. now rewrite detect_bold_flag.
  - intros ->. discriminate.
Qed.

Lemma leading_whitespace_ignored_witness :
  parse_lines [Py.lit "  " ++ Py.lit "- item" ++ [32%N; NL]]
  = [Segment (TAB :: Py.lit "item" ++ [NL]) LIST_ITEM false]
  /\ parse_lines [[TAB; 32%N] ++ Py.lit "# Title" ++ []]
     = [Segment (Py.lit "Title" ++ [NL]) TITLE false]
  /\ parse_lines [[32%N; TAB; 32%N]] = [blank_segment].
Proof.
  split; [|split].
  - exact (proj1 (leading_whitespace_ignored (Py.lit "  ") [32%N; NL]
                    (Py.lit "- item") [] [] [] eq_refl eq_refl eq_refl)).
  - exact (proj1 (leading_whitespace_ignored [TAB; 32%N] []
                    (Py.lit "# Title") [] [] [] eq_refl eq_refl eq_refl)).
  - exact (proj2 (proj2 (leading_whitespace_ignored [32%N; TAB; 32%N] []
                           (Py.lit "x") [] [] [] eq_refl eq_refl eq_refl))).
Defined.

(** X1. Every segment that [parse_markdown] returns holds one line of
    text: its text ends with a newline, and has no other newline and no
    asterisk. *)
Theorem segment_texts_are_single_lines (content : Py.str) :
  Forall (fun seg => exists body,
            text seg = body ++ [NL] /\ ~ In NL body /\ ~ In STAR body)
         (parse_markdown content).
Proof.
  unfold parse_markdown. rewrite parse_lines_map.
  apply Forall_forall. intros seg Hin.
  apply in_map_iff in Hin as (raw & <- & Hraw).
  pose proof (readlines_shape content) as Hshape.
  rewrite Forall_forall in Hshape.
  destruct (Hshape raw Hraw) as (b & Hb & Hnl).
  rewrite line_segment_text. unfold line_text.
  eexists. split; [reflexivity|]. split.
  - intros H. apply strip_markers_in in H as [H _].
    apply in_spec_style in H as [H|H]; [discriminate|].
    assert (E : Py.strip raw = Py.strip b).
    { destruct Hb as [->| ->]; [|reflexivity].
      now apply strip_trailing_spaces. }
    rewrite E in H. now apply in_strip in H.
  - intros H. apply strip_markers_in in H as [_ H]. now apply H.
Qed.

(** X2. A list item is never bold, and its text starts with the tab that
    replaces the marker. *)
Theorem list_items_never_bold (lines : list Py.str) (seg : segment) :
  In seg (parse_lines lines) ->
  seg_style seg = LIST_ITEM ->
  bold seg = false /\ exists rest, text seg = TAB :: rest.
Proof.
  rewrite parse_lines_map. intros Hin Hsty.
  apply in_map_iff in Hin as (raw & <- & _).
  destruct (Py.strip raw) as [|c l] eqn:E.
  { unfold line_segment in Hsty. rewrite E in Hsty. discriminate. }
  rewrite (line_segment_of_stripped raw (c :: l) E) in * by discriminate.
  cbn [seg_style bold text] in *.
  revert Hsty. unfold spec_determine_style.
  repeat match goal with
         | |- context [if ?b then _ else _] => destruct b
         end; cbn [fst snd]; try discriminate; intros _;
    (split; [reflexivity | eexists; reflexivity]).
Qed.

Lemma list_items_never_bold_witness :
  bold (Segment (TAB :: Py.lit "bold" ++ [NL]) LIST_ITEM false) = false.
Proof.
  refine (proj1 (list_items_never_bold [Py.lit "- **bold**"]
                   (Segment (TAB :: Py.lit "bold" ++ [NL]) LIST_ITEM false)
                   _ eq_refl)).
  left. reflexivity.
Defined.

(** X3. A marker followed by plain text (no asterisk, not ending in
    whitespace) gives one segment with the style of the marker, not bold,
    whose text is exactly the plain text and a newline (after a tab for a
    list item), whatever whitespace follows on the line. *)
Theorem plain_marked_line (t ws : Py.str) (b : N) :
  Py.isspace b = false ->
  ~ In STAR (t ++ [b]) ->
  forallb Py.isspace ws = true ->
  parse_lines [(Py.lit "# " ++ t ++ [b]) ++ ws]
    = [Segment ((t ++ [b]) ++ [NL]) TITLE false]
  /\ parse_lines [(Py.lit "## " ++ t ++ [b]) ++ ws]
    = [Segment ((t ++ [b]) ++ [NL]) HEADING_1 false]
  /\ parse_lines [(Py.lit "### " ++ t ++ [b]) ++ ws]
    = [Segment ((t ++ [b]) ++ [NL]) HEADING_2 false]
  /\ parse_lines [(Py.lit "- " ++ t ++ [b]) ++ ws]
    = [Segment (TAB :: (t ++ [b]) ++ [NL]) LIST_ITEM false]
  /\ parse_lines [(Py.lit "* " ++ t ++ [b]) ++ ws]
    = [Segment (TAB :: (t ++ [b]) ++ [NL]) LIST_ITEM false].
Proof.
  intros Hb Hstar Hws.
  assert (Htab : ~ In STAR (TAB :: t ++ [b])).
  { intros [H|H]; [discriminate | now apply Hstar]. }
  rewrite !parse_lines_map. cbn [map].
  rewrite (line_segment_trailing (Py.lit "# " ++ t ++ [b]) ws Hws),
    (line_segment_trailing (Py.lit "## " ++ t ++ [b]) ws Hws),
    (line_segment_trailing (Py.lit "### " ++ t ++ [b]) ws Hws),
    (line_segment_trailing (Py.lit "- " ++ t ++ [b]) ws Hws),
    (line_segment_trailing (Py.lit "* " ++ t ++ [b]) ws Hws).
  repeat split.
  - rewrite (line_segment_of_stripped _ (Py.lit "# " ++ t ++ [b]));
      [| apply (strip_fixed 35 b (32%N :: t)); [reflexivity | exact Hb]
       | discriminate].
    rewrite spec_style_title by apply startswith_app.
    cbn [fst snd skipn Py.lit list_ascii_of_string List.map app].
    now rewrite no_star_not_bold, strip_markers_id.
  - rewrite (line_segment_of_stripped _ (Py.lit "## " ++ t ++ [b]));
      [| apply (strip_fixed 35 b (35%N :: 32%N :: t)); [reflexivity | exact Hb]
       | discriminate].
    rewrite spec_style_heading_1 by apply startswith_app.
    cbn [fst snd skipn Py.lit list_ascii_of_string List.map app].
    now rewrite no_star_not_bold, strip_markers_id.
  - rewrite (line_segment_of_stripped _ (Py.lit "### " ++ t ++ [b]));
      [| apply (strip_fixed 35 b (35%N :: 35%N :: 32%N :: t));
         [reflexivity | exact Hb]
       | discriminate].
    rewrite spec_style_heading_2 by apply startswith_app.
    cbn [fst snd skipn Py.lit list_ascii_of_string List.map app].
    now rewrite no_star_not_bold, strip_markers_id.
  - rewrite (line_segment_of_stripped _ (Py.lit "- " ++ t ++ [b]));
      [| apply (strip_fixed 45 b (32%N :: t)); [reflexivity | exact Hb]
       | discriminate].
    rewrite spec_style_list_item by (left; apply startswith_app).
    cbn [fst snd skipn Py.lit list_ascii_of_string List.map app].
    now rewrite no_star_not_bold, strip_markers_id.
  - rewrite (line_segment_of_stripped _ (Py.lit "* " ++ t ++ [b]));
      [| apply (strip_fixed 42 b (32%N :: t)); [reflexivity | exact Hb]
       | discriminate].
    rewrite spec_style_list_item by (right; apply startswith_app).
    cbn [fst snd skipn Py.lit list_ascii_of_string List.map app].
    now rewrite no_star_not_bold, strip_markers_id.
Qed.

Lemma plain_marked_line_witness :
  parse_lines [Py.lit "## Heading" ++ [NL]]
  = [Segment (Py.lit "Heading" ++ [NL]) HEADING_1 false].
Proof.
  assert (Hs : ~ In STAR (Py.lit "Headin" ++ [103%N])).
  { vm_compute. intuition discriminate. }
  exact (proj1 (proj2 (plain_marked_line (Py.lit "Headin") [NL] 103
                         eq_refl Hs eq_refl))).
Defined.

(** X4. A line whose content is plain text between two "**" markers gives
    a bold segment with exactly that text, also after a heading marker and
    whatever whitespace surrounds the line. *)
Theorem whole_line_bold (t ws1 ws2 : Py.str) :
  ~ In STAR t ->
  forallb Py.isspace ws1 = true ->
  forallb Py.isspace ws2 = true ->
  parse_lines [ws1 ++ (Py.lit "**" ++ t ++ Py.lit "**") ++ ws2]
    = [Segment (t ++ [NL]) NORMAL true]
  /\ parse_lines [ws1 ++ (Py.lit "# " ++ Py.lit "**" ++ t ++ Py.lit "**") ++ ws2]
    = [Segment (t ++ [NL]) TITLE true]
  /\ parse_lines [ws1 ++ (Py.lit "## " ++ Py.lit "**" ++ t ++ Py.lit "**") ++ ws2]
    = [Segment (t ++ [NL]) HEADING_1 true]
  /\ parse_lines [ws1 ++ (Py.lit "### " ++ Py.lit "**" ++ t ++ Py.lit "**") ++ ws2]
    = [Segment (t ++ [NL]) HEADING_2 true].
Proof.
  intros Hstar H1 H2.
  assert (Hclean : strip_markers (Py.lit "**" ++ t ++ Py.lit "**") = t).
  { unfold strip_markers.
    change (Py.lit "**") with [42%N; 42%N]. cbn [app filter].
    change (not_star 42) with false. cbv iota.
    rewrite filter_app. cbn [filter]. change (not_star 42) with false.
    cbv iota. rewrite app_nil_r. now apply strip_markers_id. }
  assert (Hbold : fst (detect_bold (Py.lit "**" ++ t ++ Py.lit "**")) = true).
  { unfold detect_bold. rewrite startswith_app.
    rewrite app_assoc, endswith_app. reflexivity. }
  rewrite !parse_lines_map. cbn [map].
  rewrite
    (line_segment_indented ws1 ((Py.lit "**" ++ t ++ Py.lit "**") ++ ws2) H1),
    (line_segment_indented ws1
       ((Py.lit "# " ++ Py.lit "**" ++ t ++ Py.lit "**") ++ ws2) H1),
    (line_segment_indented ws1
       ((Py.lit "## " ++ Py.lit "**" ++ t ++ Py.lit "**") ++ ws2) H1),
    (line_segment_indented ws1
       ((Py.lit "### " ++ Py.lit "**" ++ t ++ Py.lit "**") ++ ws2) H1).
  rewrite
    (line_segment_trailing (Py.lit "**" ++ t ++ Py.lit "**") ws2 H2),
    (line_segment_trailing (Py.lit "# " ++ Py.lit "**" ++ t ++ Py.lit "**") ws2 H2),
    (line_segment_trailing (Py.lit "## " ++ Py.lit "**" ++ t ++ Py.lit "**") ws2 H2),
    (line_segment_trailing (Py.lit "### " ++ Py.lit "**" ++ t ++ Py.lit "**") ws2 H2).
  split; [|split; [|split]].
  - rewrite (line_segment_of_stripped _ (Py.lit "**" ++ t ++ Py.lit "**"));
      [| replace (Py.lit "**" ++ t ++ Py.lit "**")
           with (42%N :: (42%N :: t ++ [42%N]) ++ [42%N])
           by (cbn [Py.lit list_ascii_of_string List.map app];
               rewrite <- ?app_assoc; reflexivity);
         now apply strip_fixed
       | discriminate].
    rewrite spec_style_normal by reflexivity.
    cbn [fst snd]. now rewrite Hclean, Hbold.
  - rewrite (line_segment_of_stripped _
               (Py.lit "# " ++ Py.lit "**" ++ t ++ Py.lit "**"));
      [| replace (Py.lit "# " ++ Py.lit "**" ++ t ++ Py.lit "**")
           with (35%N :: (32%N :: 42%N :: 42%N :: t ++ [42%N]) ++ [42%N])
           by (cbn [Py.lit list_ascii_of_string List.map app];
               rewrite <- ?app_assoc; reflexivity);
         now apply strip_fixed
       | discriminate].
    rewrite spec_style_title by apply startswith_app.
    change (skipn 2 (Py.lit "# " ++ Py.lit "**" ++ t ++ Py.lit "**"))
      with (Py.lit "**" ++ t ++ Py.lit "**").
    cbn [fst snd]. now rewrite Hclean, Hbold.
  - rewrite (line_segment_of_stripped _
               (Py.lit "## " ++ Py.lit "**" ++ t ++ Py.lit "**"));
      [| replace (Py.lit "## " ++ Py.lit "**" ++ t ++ Py.lit "**")
           with (35%N :: (35%N :: 32%N :: 42%N :: 42%N :: t ++ [42%N]) ++ [42%N])
           by (cbn [Py.lit list_ascii_of_string List.map app];
               rewrite <- ?app_assoc; reflexivity);
         now apply strip_fixed
       | discriminate].
    rewrite spec_style_heading_1 by apply startswith_app.
    change (skipn 3 (Py.lit "## " ++ Py.lit "**" ++ t ++ Py.lit "**"))
      with (Py.lit "**" ++ t ++ Py.lit "**").
    cbn [fst snd]. now rewrite Hclean, Hbold.
  - rewrite (line_segment_of_stripped _
               (Py.lit "### " ++ Py.lit "**" ++ t ++ Py.lit "**"));
      [| replace (Py.lit "### " ++ Py.lit "**" ++ t ++ Py.lit "**")
           with (35%N :: (35%N :: 35%N :: 32%N :: 42%N :: 42%N :: t ++ [42%N])
                          ++ [42%N])
           by (cbn [Py.lit list_ascii_of_string List.map app];
               rewrite <- ?app_assoc; reflexivity);
         now apply strip_fixed
       | discriminate].
    rewrite spec_style_heading_2 by apply startswith_app.
    change (skipn 4 (Py.lit "### " ++ Py.lit "**" ++ t ++ Py.lit "**"))
      with (Py.lit "**" ++ t ++ Py.lit "**").
    cbn [fst snd]. now rewrite Hclean, Hbold.
Qed.

Lemma whole_line_bold_witness :
  parse_lines [Py.lit "  " ++ (Py.lit "**" ++ Py.lit "Bold line" ++ Py.lit "**") ++ [NL]]
  = [Segment (Py.lit "Bold line" ++ [NL]) NORMAL true].
Proof.
  assert (Hs : ~ In STAR (Py.lit "Bold line")).
  { vm_compute. intuition discriminate. }
  exact (proj1 (whole_line_bold (Py.lit "Bold line") (Py.lit "  ") [NL]
                  Hs eq_refl eq_refl)).
Defined.

(** X5. Only three heading levels exist.  A line that starts with four
    hashes, or with a hash that is followed by neither a space nor a hash,
    is NORMAL text, never bold, and keeps its hashes. *)
Theorem unsupported_hash_line_is_normal (raw t : Py.str) :
  Py.strip raw = Py.lit "####" ++ t
  \/ (exists c, Py.strip raw = 35%N :: c :: t /\ c <> 32%N /\ c <> 35%N) ->
  parse_lines [raw]
  = [Segment (strip_markers (Py.strip raw) ++ [NL]) NORMAL false].
Proof.
  intros H. rewrite parse_lines_map. cbn [map].
  destruct H as [E | (c & E & Hsp & Hh)].
  - rewrite (line_segment_of_stripped raw _ E) by discriminate.
    rewrite E. rewrite spec_style_normal by reflexivity.
    reflexivity.
  - rewrite (line_segment_of_stripped raw _ E) by discriminate.
    rewrite E.
    assert (H32 : (32 =? c)%N = false) by (apply N.eqb_neq; congruence).
    assert (H35 : (35 =? c)%N = false) by (apply N.eqb_neq; congruence).
    rewrite spec_style_normal;
      try (cbn [Py.startswith Py.lit list_ascii_of_string List.map];
           change (N_of_ascii "#") with 35%N;
           change (N_of_ascii " ") with 32%N;
           rewrite ?H32, ?H35; reflexivity).
Qed.

Lemma unsupported_hash_line_is_normal_witness :
  parse_lines [Py.lit "#### Deep" ++ [NL]]
  = [Segment (Py.lit "#### Deep" ++ [NL]) NORMAL false].
Proof.
  exact (unsupported_hash_line_is_normal (Py.lit "#### Deep" ++ [NL])
           (Py.lit " Deep") (or_introl eq_refl)).
Defined.

(** X6. Trailing whitespace, the line terminator included, never changes
    what a line parses to. *)
Theorem trailing_whitespace_ignored (ws raw : Py.str) (before after : list Py.str) :
  forallb Py.isspace ws = true ->
  parse_lines (before ++ (raw ++ ws) :: after)
  = parse_lines (before ++ raw :: after).
Proof.
  intros H. rewrite !parse_lines_map, !map_app. cbn [map].
  now rewrite (line_segment_trailing raw ws H).
Qed.

Lemma trailing_whitespace_ignored_witness :
  parse_lines [Py.lit "# Title" ++ [32%N; 13%N; NL]]
  = parse_lines [Py.lit "# Title"].
Proof.
  exact (trailing_whitespace_ignored [32%N; 13%N; NL] (Py.lit "# Title")
           [] [] eq_refl).
Defined.

(** X7. The parser works line by line: no segment is ever left pending
    in [current_segment], each line gives exactly one segment, and parsing
    two lists of lines one after the other gives the two lists of segments
    one after the other. *)
Theorem parse_is_line_by_line (l1 l2 : list Py.str) :
  current_segment (fold_left parse_step l1 (ParseState [] None)) = None
  /\ List.length (parse_lines l1) = List.length l1
  /\ parse_lines (l1 ++ l2) = parse_lines l1 ++ parse_lines l2.
Proof.
  split; [now rewrite parse_loop_segments|].
  rewrite !parse_lines_map, length_map, map_app. now split.
Qed.

(** ** More on the batch builder *)

Section MoreBuilderFacts.

Lemma heading_test (seg : segment) :
  negb (style_eqb (seg_style seg) NORMAL)
  && negb (style_eqb (seg_style seg) LIST_ITEM) = is_heading seg.
Proof. unfold is_heading. now destruct (seg_style seg). Qed.

Lemma build_step_requests (st : build_state) (seg : segment) :
  requests (build_step st seg)
  = requests st ++ step_requests (current_index st) seg.
Proof.
  unfold build_step, step_requests. cbn [requests].
  rewrite heading_test.
  destruct (is_heading seg); destruct (bold seg);
    rewrite <- ?app_assoc; cbn [app]; now rewrite ?app_nil_r.
Qed.

Lemma build_loop_index (segs : list segment) (st : build_state) :
  current_index (fold_left build_step segs st)
  = current_index st + Py.len (body_text segs).
Proof.
  revert st; induction segs as [|seg segs IH]; intros st; cbn [fold_left].
  - unfold body_text, Py.len. cbn. lia.
  - rewrite IH, build_step_index. unfold body_text, Py.len.
    cbn [map List.concat]. rewrite length_app. lia.
Qed.

Lemma step_requests_shift (idx d : Z) (seg : segment) :
  step_requests (idx + d) seg = map (shift_request d) (step_requests idx seg).
Proof.
  unfold step_requests.
  replace (idx + d + Py.len (text seg) - 1)
    with (idx + Py.len (text seg) - 1 + d) by lia.
  now destruct (is_heading seg); destruct (bold seg).
Qed.

(** The loop from any state: the requests so far, then the requests of the
    remaining segments moved to the cursor. *)
Lemma build_loop_requests (segs : list segment) (st : build_state) :
  requests (fold_left build_step segs st)
  = requests st
    ++ map (shift_request (current_index st - 1))
           (requests (build_requests segs)).
Proof.
  unfold build_requests.
  revert st; induction segs as [|seg segs IH]; intros st; cbn [fold_left].
  - cbn. now rewrite app_nil_r.
  - rewrite IH, (IH (build_step build_init seg)).
    rewrite !build_step_requests, !build_step_index.
    cbn [build_init requests current_index app].
    rewrite <- app_assoc. f_equal.
    rewrite map_app, map_map. f_equal.
    + replace (current_index st) with (1 + (current_index st - 1)) at 1 by lia.
      apply step_requests_shift.
    + apply map_ext. intros [t|a b n|a b e]; cbn [shift_request];
        try reflexivity; f_equal; lia.
Qed.

Lemma in_step_ranges (idx : Z) (seg : segment) (r : Z * Z) :
  In r (ranges (step_requests idx seg)) ->
  is_styled seg = true /\ r = (idx, idx + Py.len (text seg) - 1).
Proof.
  unfold step_requests, is_styled.
  destruct (is_heading seg); destruct (bold seg); cbn [app ranges In orb];
    intuition congruence.
Qed.

(** Where a range comes from: a styled segment, the cursor at that
    segment, and the length of its text. *)
Lemma in_build_ranges (segs : list segment) (st : build_state) (r : Z * Z) :
  In r (ranges (requests (fold_left build_step segs st))) ->
  In r (ranges (requests st))
  \/ exists seg,
       In seg segs /\ is_styled seg = true
       /\ current_index st <= fst r
       /\ snd r = fst r + Py.len (text seg) - 1
       /\ fst r + Py.len (text seg)
          <= current_index (fold_left build_step segs st).
Proof.
  revert st; induction segs as [|seg segs IH]; intros st; cbn [fold_left].
  - now left.
  - intros H. apply IH in H as [H | (s & Hin & Hsty & Hlo & Hr & Hhi)].
    + rewrite build_step_requests, ranges_app in H.
      apply in_app_or in H as [H|H]; [now left|right].
      apply in_step_ranges in H as [Hsty ->].
      exists seg. cbn [fst snd]. repeat split; [now left | exact Hsty | lia |].
      rewrite build_loop_index, build_step_index.
      pose proof (len_nonneg (body_text segs)). lia.
    + right. exists s. rewrite build_step_index in Hlo.
      pose proof (len_nonneg (text seg)).
      repeat split; [now right | exact Hsty | lia | exact Hr | exact Hhi].
Qed.

End MoreBuilderFacts.

Section MoreBuilderFacts2.

Lemma inserted_texts_app (r1 r2 : list request) :
  inserted_texts (r1 ++ r2) = inserted_texts r1 ++ inserted_texts r2.
Proof.
  induction r1 as [|[t|a b n|a b e] r1 IH]; cbn [inserted_texts app];
    now rewrite ?IH.
Qed.

Lemma inserted_texts_step (idx : Z) (seg : segment) :
  inserted_texts (step_requests idx seg) = [text seg].
Proof.
  unfold step_requests. now destruct (is_heading seg); destruct (bold seg).
Qed.

Lemma build_loop_inserts (segs : list segment) (st : build_state) :
  inserted_texts (requests (fold_left build_step segs st))
  = inserted_texts (requests st) ++ map text segs.
Proof.
  revert st; induction segs as [|seg segs IH]; intros st; cbn [fold_left map].
  - now rewrite app_nil_r.
  - rewrite IH, build_step_requests, inserted_texts_app, inserted_texts_step.
    now rewrite <- app_assoc.
Qed.

Lemma parsed_text_nonempty (lines : list Py.str) (seg : segment) :
  In seg (parse_lines lines) -> 1 <= Py.len (text seg).
Proof.
  rewrite parse_lines_map. intros H.
  apply in_map_iff in H as (raw & <- & _).
  rewrite line_segment_text. unfold line_text, Py.len.
  rewrite length_app. cbn [List.length]. lia.
Qed.

Lemma ranges_map_shift (d : Z) (reqs : list request) :
  ranges (map (shift_request d) reqs)
  = map (fun r => (fst r + d, snd r + d)) (ranges reqs).
Proof.
  induction reqs as [|[t|a b n|a b e] reqs IH];
    cbn [map shift_request ranges fst snd]; now rewrite ?IH.
Qed.

(** Every styled segment has a range of its own, one shorter than its
    text. *)
Lemma styled_segment_range (segs : list segment) (seg : segment) :
  In seg segs -> is_styled seg = true ->
  exists r, In r (ranges (requests (build_requests segs)))
            /\ snd r = fst r + Py.len (text seg) - 1.
Proof.
  intros Hin Hsty.
  apply in_split in Hin as (a & b & ->).
  unfold build_requests. rewrite fold_left_app, build_loop_requests.
  unfold build_requests. cbn [fold_left].
  rewrite (build_loop_requests b (build_step build_init seg)),
    build_step_requests.
  cbn [build_init requests app current_index].
  set (d := current_index (fold_left build_step a build_init) - 1).
  exists (1 + d, 1 + Py.len (text seg) - 1 + d).
  split; [|cbn [fst snd]; lia].
  rewrite ranges_app. apply in_or_app. right.
  rewrite ranges_map_shift, ranges_app.
  apply in_map_iff. exists (1, 1 + Py.len (text seg) - 1).
  split; [reflexivity|]. apply in_or_app. left.
  unfold step_requests, is_styled in *.
  destruct (is_heading seg); destruct (bold seg); cbn [app ranges In];
    try discriminate; auto.
Qed.

End MoreBuilderFacts2.

(** X8. The insert operations of the batch carry the segment texts, all of
    them and in order, and the cursor ends at 1 plus the length of the
    whole body text. *)
Theorem inserts_carry_texts (segs : list segment) :
  inserted_texts (requests (build_requests segs)) = map text segs
  /\ current_index (build_requests segs) = 1 + Py.len (body_text segs).
Proof.
  unfold build_requests. split.
  - now rewrite build_loop_inserts.
  - now rewrite build_loop_index.
Qed.

Section RangesInOrder.

Lemma inserted_len_app (r1 r2 : list request) :
  inserted_len (r1 ++ r2) = inserted_len r1 + inserted_len r2.
Proof.
  unfold inserted_len, Py.len.
  rewrite inserted_texts_app, concat_app, length_app. lia.
Qed.

Lemma inserted_len_nonneg (reqs : list request) : 0 <= inserted_len reqs.
Proof. apply len_nonneg. Qed.

Lemma inserted_len_step (idx : Z) (seg : segment) :
  inserted_len (step_requests idx seg) = Py.len (text seg).
Proof.
  unfold inserted_len. rewrite inserted_texts_step.
  cbn [List.concat]. now rewrite app_nil_r.
Qed.

Lemma ranges_within_app (i : Z) (r1 r2 : list request) :
  ranges_within i (r1 ++ r2)
  = ranges_within i r1 && ranges_within (i + inserted_len r1) r2.
Proof.
  revert i; induction r1 as [|[t|a b n|a b e] r1 IH]; intros i;
    cbn [app ranges_within].
  - unfold inserted_len, Py.len. cbn. now rewrite Z.add_0_r.
  - rewrite IH. do 2 f_equal.
    change (InsertText t :: r1) with ([InsertText t] ++ r1).
    rewrite inserted_len_app. unfold inserted_len at 2.
    cbn [inserted_texts List.concat]. rewrite app_nil_r. lia.
  - rewrite IH, !andb_assoc. reflexivity.
  - rewrite IH, !andb_assoc. reflexivity.
Qed.

(** One iteration, replayed with [idx - 1] characters already inserted. *)
Lemma ranges_within_step (idx : Z) (seg : segment) :
  1 <= idx -> 1 <= Py.len (text seg) ->
  ranges_within (idx - 1) (step_requests idx seg) = true.
Proof.
  intros Hi Hl. unfold step_requests.
  destruct (is_heading seg); destruct (bold seg);
    cbn [app ranges_within]; rewrite ?andb_true_r, ?andb_true_iff;
    repeat split; try reflexivity; apply Z.leb_le; lia.
Qed.

Lemma build_loop_ranges_within (segs : list segment) (st : build_state) :
  Forall (fun seg => 1 <= Py.len (text seg)) segs ->
  current_index st = 1 + inserted_len (requests st) ->
  ranges_within 0 (requests st) = true ->
  ranges_within 0 (requests (fold_left build_step segs st)) = true.
Proof.
  revert st; induction segs as [|seg segs IH]; intros st Hseg Hidx Hst;
    cbn [fold_left]; [exact Hst|].
  inversion Hseg as [|? ? Hl Hrest]; subst.
  pose proof (inserted_len_nonneg (requests st)) as Hn.
  apply IH; [exact Hrest | |].
  - rewrite build_step_index, build_step_requests, inserted_len_app,
      inserted_len_step. lia.
  - rewrite build_step_requests, ranges_within_app, Hst. cbn [andb].
    replace (0 + inserted_len (requests st)) with (current_index st - 1) by lia.
    apply ranges_within_step; [lia | exact Hl].
Qed.

End RangesInOrder.

(** X9. For the segments of any parsed file, the batch replayed in order
    keeps every range within the text inserted so far: when a range-based
    operation is reached, its range starts at position 1 or later, does not
    end before it starts, and ends at a position that the inserts before it
    have already filled.  In particular every range ends before the final
    cursor. *)
Theorem ranges_of_parsed_file (content : Py.str) :
  let st := build_requests (parse_markdown content) in
  ranges_within 0 (requests st) = true
  /\ Forall (fun r => 1 <= fst r <= snd r /\ snd r < current_index st)
            (ranges (requests st)).
Proof.
  intros st. split.
  - apply build_loop_ranges_within; try reflexivity.
    apply Forall_forall. intros seg Hin.
    now apply parsed_text_nonempty in Hin.
  - apply Forall_forall. intros r Hr.
    apply in_build_ranges in Hr as [[] | (seg & Hin & _ & Hlo & Hr & Hhi)].
    apply parsed_text_nonempty in Hin.
    cbn [build_init current_index] in Hlo.
    fold (build_requests (parse_markdown content)) in Hhi.
    fold st in Hhi. lia.
Qed.

(** X10. The ranges of a batch are all non-empty exactly when every
    segment that is a heading or bold has a text of two characters or
    more, that is, something before its newline. *)
Theorem ranges_nonempty_iff (segs : list segment) :
  Forall (fun r => fst r < snd r) (ranges (requests (build_requests segs)))
  <-> Forall (fun seg => is_styled seg = true -> 2 <= Py.len (text seg)) segs.
Proof.
  rewrite !Forall_forall. split.
  - intros H seg Hin Hsty.
    destruct (styled_segment_range segs seg Hin Hsty) as (r & Hr & Hlen).
    specialize (H r Hr). lia.
  - intros H r Hr.
    apply in_build_ranges in Hr as [[] | (seg & Hin & Hsty & _ & Hr & _)].
    specialize (H seg Hin Hsty). lia.
Qed.

Lemma ranges_nonempty_iff_witness :
  Forall (fun r => fst r < snd r)
         (ranges (requests (build_requests title_and_body))).
Proof.
  apply (proj2 (ranges_nonempty_iff title_and_body)).
  repeat constructor; cbn; intros; try discriminate; lia.
Defined.

Section MoreBuilderFacts3.

Lemma build_loop_forall (P : request -> Prop) (segs : list segment)
    (st : build_state) :
  (forall idx seg, Forall P (step_requests idx seg)) ->
  Forall P (requests st) ->
  Forall P (requests (fold_left build_step segs st)).
Proof.
  intros Hstep. revert st; induction segs as [|seg segs IH]; intros st H;
    cbn [fold_left]; [exact H|].
  apply IH. rewrite build_step_requests. apply Forall_app. now split.
Qed.

Lemma step_requests_length (idx : Z) (seg : segment) :
  List.length (step_requests idx seg)
  = (1 + (if is_heading seg then 1 else 0) + (if bold seg then 1 else 0))%nat.
Proof.
  unfold step_requests. now destruct (is_heading seg); destruct (bold seg).
Qed.

Lemma build_loop_length (segs : list segment) (st : build_state) :
  List.length (requests (fold_left build_step segs st))
  = (List.length (requests st) + List.length segs
     + List.length (filter is_heading segs)
     + List.length (filter bold segs))%nat.
Proof.
  revert st; induction segs as [|seg segs IH]; intros st;
    cbn [fold_left filter List.length]; [lia|].
  rewrite IH, build_step_requests, length_app, step_requests_length.
  destruct (is_heading seg); destruct (bold seg); cbn [List.length]; lia.
Qed.

End MoreBuilderFacts3.

(** X11. A paragraph-style operation always names TITLE, HEADING_1 or
    HEADING_2: the default NORMAL_TEXT is never sent.  A text-style
    operation always sets bold. *)
Theorem style_operations_named (segs : list segment) :
  Forall (fun r => match r with
                   | InsertText _ => True
                   | UpdateParagraphStyle _ _ n => n <> NS_NORMAL_TEXT
                   | UpdateTextStyle _ _ e => e = true
                   end)
         (requests (build_requests segs)).
Proof.
  apply build_loop_forall; [|constructor].
  intros idx seg. unfold step_requests, is_heading.
  destruct (seg_style seg); destruct (bold seg); cbn [app p_style];
    repeat constructor; discriminate.
Qed.

Section RequestKinds.

Variable P : request -> bool.
Variable q : segment -> bool.
Hypothesis step_count :
  forall idx seg,
    List.length (filter P (step_requests idx seg))
    = if q seg then 1%nat else 0%nat.

Lemma build_loop_kind_count (segs : list segment) (st : build_state) :
  List.length (filter P (requests (fold_left build_step segs st)))
  = (List.length (filter P (requests st)) + List.length (filter q segs))%nat.
Proof.
  revert st; induction segs as [|seg segs IH]; intros st;
    cbn [fold_left filter List.length]; [lia|].
  rewrite IH, build_step_requests, filter_app, length_app, step_count.
  destruct (q seg); cbn [List.length]; lia.
Qed.

End RequestKinds.

(** X12. The batch holds exactly one insert per segment, one
    paragraph-style operation per heading segment and one text-style
    operation per bold segment; there is no other kind of request, so the
    batch has as many requests as these three counts together. *)
Theorem request_count (segs : list segment) :
  let reqs := requests (build_requests segs) in
  List.length (filter is_insert reqs) = List.length segs
  /\ List.length (filter is_paragraph_style reqs)
     = List.length (filter is_heading segs)
  /\ List.length (filter is_text_style reqs)
     = List.length (filter bold segs)
  /\ List.length reqs
     = (List.length segs + List.length (filter is_heading segs)
        + List.length (filter bold segs))%nat.
Proof.
  cbv zeta. unfold build_requests. repeat split.
  - rewrite (build_loop_kind_count is_insert (fun _ => true)).
    + cbn [build_init requests filter List.length Nat.add].
      induction segs as [|s segs IH]; cbn [filter List.length];
        [reflexivity|]. now rewrite IH.
    + intros idx seg. unfold step_requests.
      now destruct (is_heading seg); destruct (bold seg).
  - rewrite (build_loop_kind_count is_paragraph_style is_heading);
      [reflexivity|].
    intros idx seg. unfold step_requests.
    now destruct (is_heading seg); destruct (bold seg).
  - rewrite (build_loop_kind_count is_text_style bold); [reflexivity|].
    intros idx seg. unfold step_requests.
    now destruct (is_heading seg); destruct (bold seg).
  - now rewrite build_loop_length.
Qed.

(** X13. Building the batch for two lists of segments, one after the
    other, gives the batch of the first, then the batch of the second with
    its ranges moved right by the length of the first body text. *)
Theorem build_requests_app (a b : list segment) :
  requests (build_requests (a ++ b))
  = requests (build_requests a)
    ++ map (shift_request (Py.len (body_text a))) (requests (build_requests b))
  /\ current_index (build_requests (a ++ b))
     = current_index (build_requests a) + Py.len (body_text b).
Proof.
  split.
  - unfold build_requests at 1. rewrite fold_left_app.
    rewrite build_loop_requests, build_loop_index.
    cbn [build_init current_index].
    replace (1 + Py.len (body_text a) - 1) with (Py.len (body_text a)) by lia.
    reflexivity.
  - unfold build_requests. rewrite fold_left_app.
    now rewrite (build_loop_index b).
Qed.

(** ** More on [create_document] *)

Section MoreDocumentFacts.

Lemma requests_nil_iff (segs : list segment) :
  requests (build_requests segs) = [] <-> segs = [].
Proof.
  split; [|now intros ->].
  intros H. apply (f_equal (@List.length request)) in H.
  unfold build_requests in H. rewrite build_loop_length in H.
  destruct segs; [reflexivity|]. cbn [List.length] in H. lia.
Qed.

End MoreDocumentFacts.

(** X14. When the create call succeeds, [create_document] makes the batch
    call exactly when there is at least one segment, once, after the
    create call, for the document that was just created and with the
    requests built from the segments; this does not depend on whether the
    batch is accepted.  It never touches [token.json]. *)
Theorem create_document_calls
    (svc : service) (title : Py.str) (segs : list segment) (w : world)
    (d : document) :
  documents_create svc title = Ok d ->
  let w' := snd (create_document svc title segs w) in
  remote_calls w'
  = remote_calls w
    ++ CallCreate title
       :: match segs with
          | [] => []
          | _ :: _ => [CallBatchUpdate (doc_get_documentId d)
                         (requests (build_requests segs))]
          end
  /\ token_json w' = token_json w.
Proof.
  intros Hc. cbv zeta. unfold create_document. run. rewrite Hc. cbn [fst snd].
  destruct (requests (build_requests segs)) as [|r reqs] eqn:E.
  - apply requests_nil_iff in E. subst segs. cbn. now split.
  - destruct segs as [|seg segs]; [discriminate|].
    run.
    destruct (documents_batchUpdate svc (doc_get_documentId d) (r :: reqs))
      as [[]|e]; cbn; rewrite <- ?app_assoc; now split.
Qed.

Lemma create_document_calls_witness :
  remote_calls (snd (create_document service_rejecting_batch DOCUMENT_TITLE
                       title_and_body world0))
  = [CallCreate DOCUMENT_TITLE;
     CallBatchUpdate (VStr (Py.lit "doc-1"))
       (requests (build_requests title_and_body))].
Proof.
  exact (proj1 (create_document_calls service_rejecting_batch DOCUMENT_TITLE
                  title_and_body world0 (Document (Some (Py.lit "doc-1")))
                  eq_refl)).
Defined.

(** X15. When the create call is rejected, [create_document] raises the
    error of the service: nothing is printed and no batch call is made. *)
Theorem create_failure_propagates
    (svc : service) (title : Py.str) (segs : list segment) (w : world)
    (e : exn) :
  documents_create svc title = Raise e ->
  create_document svc title segs w
  = (Raise e,
     World (stdout w) (token_json w) (remote_calls w ++ [CallCreate title])).
Proof.
  intros Hc. unfold create_document. run. now rewrite Hc.
Qed.

Lemma create_failure_propagates_witness :
  create_document service_rejecting_create DOCUMENT_TITLE title_and_body world0
  = (Raise "HttpError 403"%string,
     World [] None [CallCreate DOCUMENT_TITLE]).
Proof.
  exact (create_failure_propagates service_rejecting_create DOCUMENT_TITLE
           title_and_body world0 "HttpError 403"%string eq_refl).
Defined.

(** ** More on the credential manager *)

(** X16. A persisted token that is valid is returned as it is: no remote
    call, nothing printed, nothing written. *)
Theorem valid_token_reused (env : environment) (w : world) (c : credentials) :
  token_json w = Some (Ok c) ->
  valid c = true ->
  get_credentials env w = (Ok (Some c), w).
Proof.
  intros Ht Hv. unfold get_credentials. run. now rewrite Ht, Hv.
Qed.

Lemma valid_token_reused_witness :
  get_credentials env_refresh_rejected world_fresh
  = (Ok (Some fresh_token), world_fresh).
Proof.
  exact (valid_token_reused env_refresh_rejected world_fresh fresh_token
           eq_refl eq_refl).
Defined.

(** X17. With [credentials.json] present and no valid or refreshable
    token (none persisted, or one without a non-empty refresh value, or one
    that is invalid without being expired), the interactive flow is run and
    no refresh is attempted; the only output is what the flow prints.  Its
    token is written to [token.json] and returned; when the flow fails, or
    [token.json] cannot be opened for writing, the error is raised and
    [token.json] keeps what it had. *)
Theorem interactive_authorization (env : environment) (w : world) :
  credentials_json_exists env = true ->
  no_usable_token w ->
  let calls := remote_calls w ++ [CallInteractiveFlow] in
  let out := stdout w ++ flow_output env in
  (forall c, run_flow env = Ok c ->
             open_token_for_writing env = Ok tt ->
             get_credentials env w
             = (Ok (Some c), World out (Some (Ok c)) calls))
  /\ (forall e, run_flow env = Raise e ->
                get_credentials env w
                = (Raise e, World out (token_json w) calls))
  /\ (forall c e, run_flow env = Ok c ->
                  open_token_for_writing env = Raise e ->
                  get_credentials env w
                  = (Raise e, World out (token_json w) calls)).
Proof.
  intros Hc Hn calls out.
  rewrite get_credentials_no_usable_token by exact Hn.
  rewrite interactive_flow_present by exact Hc.
  unfold after_flow. fold calls. fold out.
  split; [|split].
  - intros c Hf Ho. now rewrite Hf, Ho.
  - intros e Hf. now rewrite Hf.
  - intros c e Hf Ho. now rewrite Hf, Ho.
Qed.

Lemma interactive_authorization_witness :
  get_credentials env_flow_accepted world_expired_no_refresh
  = (Ok (Some fresh_token),
     World authorization_prompt (Some (Ok fresh_token)) [CallInteractiveFlow]).
Proof.
  refine (proj1 (interactive_authorization env_flow_accepted
                   world_expired_no_refresh eq_refl _)
            fresh_token eq_refl eq_refl).
  right. exists expired_token_no_refresh. repeat split.
Defined.

(** X18. When [token.json] exists but cannot be loaded, the error of the
    loader is raised at once: no interactive flow, even with
    [credentials.json] present, and nothing printed. *)
Theorem unreadable_token_file_aborts (env : environment) (w : world) (e : exn) :
  token_json w = Some (Raise e) ->
  get_credentials env w = (Raise e, w).
Proof.
  intros Ht. unfold get_credentials. run. now rewrite Ht.
Qed.

Lemma unreadable_token_file_aborts_witness :
  get_credentials env_flow_accepted world_unreadable
  = (Raise "ValueError"%string, world_unreadable).
Proof.
  exact (unreadable_token_file_aborts env_flow_accepted world_unreadable
           "ValueError"%string eq_refl).
Defined.



(** X20. Whatever happens, [get_credentials] makes at most one remote
    call, to the identity provider and never to the document service.  Its
    output is nothing, or the missing-configuration message (and then it
    returns [None]), or, when the interactive flow was started, what that
    flow prints.  It overwrites [token.json] only with the credentials that
    it returns. *)
Theorem get_credentials_frame
    (env : environment) (w w' : world) (r : result (option credentials)) :
  get_credentials env w = (r, w') ->
  (exists calls,
     remote_calls w' = remote_calls w ++ calls
     /\ (List.length calls <= 1)%nat
     /\ forallb is_auth_call calls = true)
  /\ (stdout w' = stdout w
      \/ (r = Ok None /\ stdout w' = stdout w ++ missing_config_message)
      \/ (remote_calls w' = remote_calls w ++ [CallInteractiveFlow]
          /\ stdout w' = stdout w ++ flow_output env))
  /\ (token_json w' = token_json w
      \/ exists c, r = Ok (Some c) /\ token_json w' = Some (Ok c)).
Proof.
  assert (Hnil : forall l : list remote_call, l = l ++ [])
    by (intros l; now rewrite app_nil_r).
  assert (Hflow : forall r w',
            interactive_flow env w = (r, w') ->
            (exists calls,
               remote_calls w' = remote_calls w ++ calls
               /\ (List.length calls <= 1)%nat
               /\ forallb is_auth_call calls = true)
            /\ (stdout w' = stdout w
                \/ (r = Ok None /\ stdout w' = stdout w ++ missing_config_message)
                \/ (remote_calls w' = remote_calls w ++ [CallInteractiveFlow]
                    /\ stdout w' = stdout w ++ flow_output env))
            /\ (token_json w' = token_json w
                \/ exists c, r = Ok (Some c) /\ token_json w' = Some (Ok c))).
  { intros r0 w0. destruct (credentials_json_exists env) eqn:Hc.
    - rewrite interactive_flow_present by exact Hc. unfold after_flow.
      destruct (run_flow env) as [c|e];
        [destruct (open_token_for_writing env) as [[]|e]|];
        intros H; injection H as <- <-;
        cbn [stdout token_json remote_calls];
        (split; [exists [CallInteractiveFlow]; auto | split]);
        try (right; right; now split);
        try (now left);
        right; eexists; split; reflexivity.
    - rewrite interactive_flow_missing_config by exact Hc.
      intros H; injection H as <- <-. unfold after_missing_config.
      cbn [stdout token_json remote_calls].
      split; [exists []; cbn; auto | split]; [|now left].
      right; left. now split. }
  rewrite get_credentials_paths.
  destruct (token_json w) as [[c0|e]|] eqn:Ht; [| | apply Hflow].
  - destruct (valid c0).
    + intros H; injection H as <- <-.
      split; [exists []; cbn; auto | split; now left].
    + destruct (expired c0 && has_refresh c0); [|apply Hflow].
      rewrite refresh_flow_cases. cbv zeta.
      destruct (refresh env c0) as [c1|e];
        [destruct (open_token_for_writing env) as [[]|e]|];
        intros H; injection H as <- <-;
        cbn [stdout token_json remote_calls];
        (split; [exists [CallRefresh c0]; auto | split; [now left|]]);
        try (now left);
        right; eexists; split; reflexivity.
  - intros H; injection H as <- <-.
    split; [exists []; cbn; auto | split; now left].
Qed.

Lemma get_credentials_frame_witness :
  exists calls,
    [CallRefresh expired_token] = [] ++ calls
    /\ (List.length calls <= 1)%nat
    /\ forallb is_auth_call calls = true.
Proof.
  exact (proj1 (get_credentials_frame env_refresh_rejected world_expired
                  (World [] (Some (Ok expired_token)) [CallRefresh expired_token])
                  (Raise "RefreshError"%string) eq_refl)).
Defined.

(** ** More on [main] *)

(** X21. A run in which everything succeeds, on a markdown file with at
    least one line: [main] creates one document titled [DOCUMENT_TITLE],
    sends one batch holding the requests built from the parsed file, prints
    the four status lines after whatever the credential step left, and
    returns [None]. *)
Theorem main_runs_the_pipeline
    (env : environment) (w w1 : world) (c : credentials) (svc : service)
    (content : Py.str) (d : document) :
  get_credentials env w = (Ok (Some c), w1) ->
  discovery_build env c = Ok svc ->
  read_md env = Ok content ->
  parse_markdown content <> [] ->
  documents_create svc DOCUMENT_TITLE = Ok d ->
  let id := doc_get_documentId d in
  let reqs := requests (build_requests (parse_markdown content)) in
  documents_batchUpdate svc id reqs = Ok tt ->
  main env w
  = (Ok VNone,
     World (stdout w1
            ++ [Py.lit "Created document with title: " ++ DOCUMENT_TITLE;
                Py.lit "Document ID: " ++ format id;
                Py.lit "Content inserted and formatted.";
                Py.lit "View your document here: https://docs.google.com/document/d/"
                ++ format id])
           (token_json w1)
           (remote_calls w1
            ++ [CallCreate DOCUMENT_TITLE; CallBatchUpdate id reqs])).
Proof.
  intros Hg Hb Hm Hne Hc id reqs Hu.
  unfold main. unfold bind at 1. rewrite Hg.
  unfold bind at 1, lift at 1. rewrite Hb.
  unfold bind at 1, lift at 1. rewrite Hm.
  unfold create_document. run. rewrite Hc. cbn [fst snd].
  fold id. fold reqs.
  destruct reqs as [|r reqs'] eqn:E.
  { apply requests_nil_iff in E. contradiction. }
  run. rewrite Hu. cbn [fst snd]. now rewrite <- !app_assoc.
Qed.

Lemma main_runs_the_pipeline_witness :
  fst (main env_flow_accepted world_fresh) = Ok VNone
  /\ remote_calls (snd (main env_flow_accepted world_fresh))
     = [CallCreate DOCUMENT_TITLE;
        CallBatchUpdate (VStr (Py.lit "doc-1"))
          [InsertText (Py.lit "Title" ++ [NL]);
           UpdateParagraphStyle 1 6 NS_TITLE]].
Proof.
  assert (Hne : parse_markdown (Py.lit "# Title") <> [])
    by (vm_compute; discriminate).
  rewrite (main_runs_the_pipeline env_flow_accepted world_fresh world_fresh
             fresh_token service_ok (Py.lit "# Title")
             (Document (Some (Py.lit "doc-1")))
             eq_refl eq_refl eq_refl Hne eq_refl eq_refl).
  split; reflexivity.
Defined.

(** X22. [main] stops at the first failure, before any call to the
    document service: when the credential step raises, when the session
    cannot be built, and when the markdown file cannot be read, the error
    is raised and the world is as the credential step left it.  In
    particular an unreadable markdown file never leaves an empty document
    behind. *)
Theorem main_stops_before_the_document
    (env : environment) (w w1 : world) (e : exn) :
  (get_credentials env w = (Raise e, w1) -> main env w = (Raise e, w1))
  /\ (forall c,
        get_credentials env w = (Ok (Some c), w1) ->
        discovery_build env c = Raise e ->
        main env w = (Raise e, w1))
  /\ (forall c svc,
        get_credentials env w = (Ok (Some c), w1) ->
        discovery_build env c = Ok svc ->
        read_md env = Raise e ->
        main env w = (Raise e, w1)).
Proof.
  split; [|split].
  - intros Hg. unfold main, bind. now rewrite Hg.
  - intros c Hg Hb. unfold main, bind, lift. now rewrite Hg, Hb.
  - intros c svc Hg Hb Hm. unfold main, bind, lift. now rewrite Hg, Hb, Hm.
Qed.

Lemma main_stops_before_the_document_witness :
  main env_no_markdown world_fresh
  = (Raise "FileNotFoundError"%string, world_fresh).
Proof.
  exact (proj2 (proj2 (main_stops_before_the_document env_no_markdown
                         world_fresh world_fresh "FileNotFoundError"%string))
           fresh_token service_ok eq_refl eq_refl eq_refl).
Defined.
